(** * gmx.py: command construction, batch submission and xvg plotting

    A shallow embedding of [src/gmx.py] (functions [gmx], [xvg_line],
    [xvg_multi_line], [xvg_multi_density] and [xvg]) and the properties of
    the specification established over it.

    Conventions of the embedding:
    - a Python [str] is a [string]; [None] or a [str] is an [option string];
    - a Python [dict] with [str] keys is an insertion-ordered association
      list ([PyDict]): iteration follows insertion order and assignment to
      an existing key keeps its position;
    - the numbers of a data file are binary64 floating-point numbers
      ([float]) and the arithmetic on them is that of the machine, rounding
      included; a number that is only passed on or printed (a value of a
      subtitle, a bandwidth, a place on the colour map) is its exact value,
      a rational ([Q]);
    - side effects (processes, files, plotting calls, printing) are calls
      recorded in a trace, their outcomes decided by a [world]. *)

From Stdlib Require Import List String Ascii ZArith QArith Bool Lia Arith.
From Stdlib Require Import DecimalString Qabs.
From Stdlib Require DecimalZ DecimalPos.
From Stdlib Require Floats.
Import ListNotations.

Set Implicit Arguments.

Local Open Scope string_scope.
Local Open Scope list_scope.

(** ** Characters and strings *)

Definition char_of_code (n : nat) : string := String (ascii_of_nat n) EmptyString.

(** The line feed and the double quote. *)
Definition nl : string := char_of_code 10.
Definition dquote : string := char_of_code 34.

(** String concatenation, kept apart from the append of lists. *)
Infix "+++" := String.append (right associativity, at level 60).

(** [sep.join(l)] *)
Definition join (sep : string) (l : list string) : string := String.concat sep l.

(** ** Floating-point numbers *)

Abbreviation float := PrimFloat.float.

(** [float(z)] for an [int]: the nearest binary64 number. *)
Definition float_of_Z (z : Z) : float :=
  FloatOps.SF2Prim (SpecFloat.binary_normalize FloatOps.prec FloatOps.emax z 0 false).

(** ** Python dictionaries with string keys *)

Module PyDict.
Section Dict.
Variable V : Type.

Definition t : Type := list (string * V).

(** [d[k]] ([None] stands for [KeyError]) *)
Fixpoint get (d : t) (k : string) : option V :=
  match d with
  | [] => None
  | (k', v) :: rest => if String.eqb k' k then Some v else get rest k
  end.

(** [d[k] = v]: an existing key keeps its place, a new key goes last. *)
Fixpoint set (d : t) (k : string) (v : V) : t :=
  match d with
  | [] => [(k, v)]
  | (k', v') :: rest =>
      if String.eqb k' k then (k, v) :: rest else (k', v') :: set rest k v
  end.

(** [d.items()] and iteration over the keys, in insertion order. *)
Definition items (d : t) : list (string * V) := d.
Definition keys (d : t) : list string := map fst d.
End Dict.
End PyDict.

(** ** The command line (gmx, lines 24-39) *)

(** One round of [for flag, file in mapping.items(): cmd.extend([flag, file])]. *)
Definition extend_flags (cmd : list string) (mapping : PyDict.t string) : list string :=
  fold_left (fun cmd kv => cmd ++ [fst kv; snd kv]) (PyDict.items mapping) cmd.

Definition gmx_cmd (executable : string) (arguments : list string)
    (inputs outputs : PyDict.t string) : list string :=
  let cmd := ["gmx"; executable] in
  let cmd := if String.eqb executable "mdrun"
             then ["mpirun"; "gmx_mpi"; executable] else cmd in
  let cmd := cmd ++ arguments in
  let cmd := extend_flags cmd inputs in
  let cmd := extend_flags cmd outputs in
  cmd.

(** The flag/path pairs of a mapping laid out flat, in iteration order. *)
Definition flag_pairs (mapping : PyDict.t string) : list string :=
  flat_map (fun kv => [fst kv; snd kv]) (PyDict.items mapping).

(** The words before the executable name. *)
Definition launcher (executable : string) : list string :=
  if String.eqb executable "mdrun" then ["mpirun"; "gmx_mpi"] else ["gmx"].

(** ** Python values and their [str()] *)

(** The values a scheduler configuration holds: [None], a [str], an [int] or
    a list of [str] (the module-load lines). *)
Inductive pyval : Type :=
| VNone
| VStr (s : string)
| VInt (z : Z)
| VList (l : list string).

Definition is_none (v : pyval) : bool :=
  match v with VNone => true | _ => false end.

(** [str(z)] for an [int]. *)
Definition str_of_Z (z : Z) : string := NilZero.string_of_int (Z.to_int z).
Definition str_of_nat (n : nat) : string := str_of_Z (Z.of_nat n).

Definition has_char (c : ascii) (s : string) : bool :=
  existsb (Ascii.eqb c) (list_ascii_of_string s).

Definition hex_digit (n : nat) : string :=
  String (nth n (list_ascii_of_string "0123456789abcdef") "0"%char) EmptyString.

Definition backslash : string := char_of_code 92.

(** One character of [repr(s)], [quote] being the delimiter chosen for [s].
    Bytes above 127 belong to the UTF-8 encoding of a printable character
    and are kept. *)
Definition repr_char (quote : ascii) (c : ascii) : string :=
  let n := nat_of_ascii c in
  if Ascii.eqb c quote || (n =? 92)%nat then backslash +++ String c EmptyString
  else if (n =? 9)%nat then backslash +++ "t"
  else if (n =? 10)%nat then backslash +++ "n"
  else if (n =? 13)%nat then backslash +++ "r"
  else if (n <? 32)%nat || (n =? 127)%nat
       then backslash +++ "x" +++ hex_digit (n / 16) +++ hex_digit (n mod 16)
  else String c EmptyString.

(** [repr(s)] for a [str]: single quotes unless [s] holds a single quote and
    no double quote. *)
Definition py_repr_str (s : string) : string :=
  let quote := if has_char (ascii_of_nat 39) s && negb (has_char (ascii_of_nat 34) s)
               then ascii_of_nat 34 else ascii_of_nat 39 in
  String quote EmptyString
    +++ String.concat EmptyString (map (repr_char quote) (list_ascii_of_string s))
    +++ String quote EmptyString.

(** [str(v)], which is what ["%s" % v] formats. *)
Definition py_str (v : pyval) : string :=
  match v with
  | VNone => "None"
  | VStr s => s
  | VInt z => str_of_Z z
  | VList l => "[" +++ join ", " (map py_repr_str l) +++ "]"
  end.

(** ** Exceptions and the two monads of the embedding *)

Inductive exn : Type :=
| ValueError (msg : string)
| TypeError (msg : string)
| KeyError (key : string)
| IndexError (msg : string)
| NameError (name : string)
| OSError (msg : string)
| CalledProcessError (returncode : Z).

(** A computation without side effects that may raise. *)
Definition result (A : Type) : Type := (exn + A)%type.

Class Monad (M : Type -> Type) : Type :=
  { ret : forall {A}, A -> M A;
    bind : forall {A B}, M A -> (A -> M B) -> M B;
    raise : forall {A}, exn -> M A }.

Declare Scope py_scope.
Delimit Scope py_scope with py.
Notation "x <- c ;; k" := (bind c (fun x => k))
  (at level 100, c at next level, right associativity) : py_scope.
Notation "c ;; k" := (bind c (fun _ => k))
  (at level 100, right associativity) : py_scope.
Local Open Scope py_scope.

#[export] Instance result_monad : Monad result :=
  { ret := fun A a => inr a;
    bind := fun A B m k => match m with inl e => inl e | inr a => k a end;
    raise := fun A e => inl e }.

(** ** The scheduler configuration (gmx, lines 61-72) *)

Definition config : Type := PyDict.t pyval.

Definition default_schdlr (name ensemble : string) : config :=
  [ ("job_name", VStr (name +++ ensemble));
    ("output", VStr (ensemble +++ ".slurm.log"));
    ("partition", VStr "andromeda");
    ("nodes", VStr "1-12");
    ("ntasks_per_node", VStr "1");
    ("ntasks", VStr "10");
    ("modules", VList ["module load mpi/mpich-x86_64";
                       "module load gromacs/2023.5-plumed"]) ].

(** [d[key]] as an expression. *)
Definition subscript (d : config) (key : string) : result pyval :=
  match PyDict.get d key with
  | Some v => ret v
  | None => raise (KeyError key)
  end.

(** [for key in scheduler: schdlr[key] = scheduler[key]] over the keys left
    to visit. *)
Fixpoint override_keys (scheduler : config) (todo : list string) (schdlr : config)
    : result config :=
  match todo with
  | [] => ret schdlr
  | key :: rest =>
      v <- subscript scheduler key ;;
      override_keys scheduler rest (PyDict.set schdlr key v)
  end.

Definition merge_scheduler (schdlr : config) (scheduler : option config) : result config :=
  match scheduler with
  | None => ret schdlr
  | Some scheduler => override_keys scheduler (PyDict.keys scheduler) schdlr
  end.

(** ** The batch script (gmx, lines 74-88) *)

Definition concat_error (type_name : string) : exn :=
  TypeError ("can only concatenate list (not " +++ dquote +++ type_name +++ dquote
             +++ ") to list").

(** The right operand of [list + schdlr['modules']]. *)
Definition expect_list (v : pyval) : result (list string) :=
  match v with
  | VList l => ret l
  | VNone => raise (concat_error "NoneType")
  | VStr _ => raise (concat_error "str")
  | VInt _ => raise (concat_error "int")
  end.

Definition batch_script (schdlr : config) (cmd : list string) : result (list string) :=
  job_name <- subscript schdlr "job_name" ;;
  output <- subscript schdlr "output" ;;
  partition <- subscript schdlr "partition" ;;
  nodes <- subscript schdlr "nodes" ;;
  ntasks <- subscript schdlr "ntasks" ;;
  ntasks_per_node <- subscript schdlr "ntasks_per_node" ;;
  modules <- subscript schdlr "modules" ;;
  modules <- expect_list modules ;;
  ret ([ "#!/bin/bash";
         "";
         "#SBATCH --job-name=" +++ py_str job_name;
         "#SBATCH --output=" +++ py_str output;
         if negb (is_none partition) then "#SBATCH --partition=" +++ py_str partition else "";
         if negb (is_none nodes) then "#SBATCH --nodes=" +++ py_str nodes else "";
         "#SBATCH --ntasks=" +++ py_str ntasks;
         if negb (is_none ntasks_per_node)
         then "#SBATCH --ntasks-per-node=" +++ py_str ntasks_per_node else "";
         "";
         "# Required modules" ]
       ++ modules
       ++ [ "";
            "# Run the molecular dynamics simulation";
            join " " cmd ]).

(** ** Effects: the trace, the world and the [IO] monad *)

(** A loaded data file: what [np.loadtxt] returns is one-dimensional (a file
    of a single row or a single column) or a table, of which the functions
    read the first two columns. *)
Inductive ndarray : Type :=
| Arr1 (values : list float)
| Arr2 (rows : list (float * float)).

Inductive color : Type :=
| Named (name : string)
| Viridis (position : Q).

(** The calls that reach outside the program, as the trace records them. *)
Inductive event : Type :=
| SubprocessRun (cmd : list string) (cwd input : option string) (capture_output : bool)
| Print (text : string)
| WriteFile (path content : string)
| Loadtxt (path : string)
| NewFigure
| PlotLine (xs ys : list float) (dashed : bool) (c : color) (label : string)
| KdePlot (ys : list float) (c : color) (bw_adjust : option Q) (label : string)
| Suptitle (text : string)
| Title (text : string)
| Xlabel (text : string)
| Ylabel (text : string)
| ScientificYAxis
| Legend
| Savefig (path : string)
| CloseFigure
| Display (html : string).

(** How a started process ended: exit status, standard output and error. *)
Record finished : Type :=
  { exit_status : Z; out_text : string; err_text : string }.

(** The outcomes of the outside calls. A call that fails at the level of the
    operating system answers with the exception it raises. *)
Record world : Type :=
  { w_spawn : list string -> option string -> option string -> result finished;
    w_write : string -> string -> option exn;
    w_loadtxt : string -> result ndarray;
    w_savefig : string -> option exn;
    (** [str(time.time())], by the number of calls made so far *)
    w_clock : nat -> string }.

Definition IO (A : Type) : Type := world -> list event -> list event * result A.

#[export] Instance io_monad : Monad IO :=
  { ret := fun A a _ t => (t, inr a);
    bind := fun A B m k w t =>
      match m w t with
      | (t', inl e) => (t', inl e)
      | (t', inr a) => k a w t'
      end;
    raise := fun A e _ t => (t, inl e) }.

Definition call (e : event) : IO unit := fun _ t => (t ++ [e], inr tt).

Definition lift {A : Type} (r : result A) : IO A := fun _ t => (t, r).

Definition ask {A : Type} (f : world -> A) : IO A := fun w t => (t, inr (f w)).

(** The outcome and the trace of a whole call. *)
Definition run {A : Type} (m : IO A) (w : world) : list event * result A := m w [].

(** [for x in l: body x] *)
Fixpoint for_each {A : Type} (l : list A) (body : A -> IO unit) : IO unit :=
  match l with
  | [] => ret tt
  | x :: rest => body x ;; for_each rest body
  end.

(** ** The names of the module (lines 1-6 and the [def]s) *)

Definition module_globals : list string :=
  [ "time"; "subprocess"; "np"; "plt"; "FuncFormatter"; "display"; "HTML";
    "gmx"; "xvg_line"; "xvg_multi_line"; "xvg_multi_density"; "xvg" ].

(** Reading a global name. *)
Definition global (name : string) : IO unit :=
  if existsb (String.eqb name) module_globals then ret tt
  else raise (NameError ("name '" +++ name +++ "' is not defined")).

(** ** The library calls *)

(** What [subprocess.run] returns. *)
Record CompletedProcess : Type :=
  { returncode : Z; stdout : option string; stderr : option string }.

(** [subprocess.run(cmd, capture_output=, text=True, cwd=, input=, check=)]:
    a process that cannot be started raises; its exit status raises only
    under [check]. *)
Definition subprocess_run (cmd : list string) (capture_output : bool)
    (cwd input : option string) (check : bool) : IO CompletedProcess :=
  global "subprocess" ;;
  call (SubprocessRun cmd cwd input capture_output) ;;
  outcome <- ask (fun w => w_spawn w cmd cwd input) ;;
  p <- lift outcome ;;
  if check && negb (exit_status p =? 0)%Z then raise (CalledProcessError (exit_status p))
  else ret {| returncode := exit_status p;
              stdout := if capture_output then Some (out_text p) else None;
              stderr := if capture_output then Some (err_text p) else None |}.

Definition str_of_option (s : option string) : string :=
  match s with Some s => s | None => "None" end.

(** [print(x)] *)
Definition print (x : option string) : IO unit := call (Print (str_of_option x)).

(** [with open(path, 'w') as file: file.write(content)] *)
Definition write_text (path content : string) : IO unit :=
  call (WriteFile path content) ;;
  failure <- ask (fun w => w_write w path content) ;;
  match failure with Some e => raise e | None => ret tt end.

(** ** gmx (lines 8-99) *)

(** [check] is not passed to [subprocess.run]: it has its default, [False]. *)
Definition gmx (executable : string) (arguments : list string)
    (inputs outputs : PyDict.t string) (name path ensemble : option string)
    (scheduler : option config) (wait : bool) (stdin : option string) : IO unit :=
  let cmd := gmx_cmd executable arguments inputs outputs in
  if negb (String.eqb executable "mdrun") then
    process <- subprocess_run cmd true path stdin false ;;
    print (stdout process) ;;
    print (stderr process)
  else
    match ensemble with
    | None => raise (ValueError "ensemble must be provided.")
    | Some ensemble =>
    match name with
    | None => raise (ValueError "name must be provided.")
    | Some name =>
    match path with
    | None => raise (ValueError "path must be provided.")
    | Some path =>
        let schdlr := default_schdlr name ensemble in
        schdlr <- lift (merge_scheduler schdlr scheduler) ;;
        batch_script <- lift (batch_script schdlr cmd) ;;
        write_text (path +++ "/" +++ ensemble +++ ".slurm") (join nl batch_script) ;;
        let sbmttr_cmd := ["sbatch"; ensemble +++ ".slurm"] in
        let sbmttr_cmd := if wait then ["sbatch"; "--wait"; ensemble +++ ".slurm"]
                          else sbmttr_cmd in
        subprocess_run sbmttr_cmd false (Some path) None false ;;
        ret tt
    end end end.

(** ** Vocabulary of the statements about gmx *)

(** A resource directive of the batch script: its option name, the key of
    the configuration it prints and the index of its line in the script. *)
Record directive : Type :=
  { d_option : string; d_key : string; d_line : nat }.

(** The directives printed under [... if schdlr[key] is not None else '']. *)
Definition guarded_directives : list directive :=
  [ {| d_option := "partition"; d_key := "partition"; d_line := 4 |};
    {| d_option := "nodes"; d_key := "nodes"; d_line := 5 |};
    {| d_option := "ntasks-per-node"; d_key := "ntasks_per_node"; d_line := 7 |} ].

(** The directives printed without a test. *)
Definition unguarded_directives : list directive :=
  [ {| d_option := "job-name"; d_key := "job_name"; d_line := 2 |};
    {| d_option := "output"; d_key := "output"; d_line := 3 |};
    {| d_option := "ntasks"; d_key := "ntasks"; d_line := 6 |} ].

(** The six directives in the order of the script. *)
Definition all_directives : list directive :=
  [ {| d_option := "job-name"; d_key := "job_name"; d_line := 2 |};
    {| d_option := "output"; d_key := "output"; d_line := 3 |};
    {| d_option := "partition"; d_key := "partition"; d_line := 4 |};
    {| d_option := "nodes"; d_key := "nodes"; d_line := 5 |};
    {| d_option := "ntasks"; d_key := "ntasks"; d_line := 6 |};
    {| d_option := "ntasks-per-node"; d_key := "ntasks_per_node"; d_line := 7 |} ].

(** [#SBATCH --option=value] *)
Definition directive_line (d : directive) (v : pyval) : string :=
  "#SBATCH --" +++ d_option d +++ "=" +++ py_str v.

(** The directive lines in the words of the specification: one line for
    each directive whose value is not [None], no line for one that is. *)
Definition spec_directive_lines (schdlr : config) : list string :=
  flat_map (fun d =>
              match PyDict.get schdlr (d_key d) with
              | Some v => if is_none v then [] else [directive_line d v]
              | None => []
              end) all_directives.

(** The script in the words of the specification. *)
Definition spec_batch_script (schdlr : config) (modules cmd : list string) : list string :=
  [ "#!/bin/bash"; "" ]
  ++ spec_directive_lines schdlr
  ++ [ ""; "# Required modules" ]
  ++ modules
  ++ [ ""; "# Run the molecular dynamics simulation"; join " " cmd ].

(** The queue submission of the scheduled mode (lines 95-97). *)
Definition sbatch_cmd (ensemble : string) (wait : bool) : list string :=
  if wait then ["sbatch"; "--wait"; ensemble +++ ".slurm"]
  else ["sbatch"; ensemble +++ ".slurm"].

(** The override, if any, keeps [modules] a list. *)
Definition modules_is_list (scheduler : option config) : bool :=
  match scheduler with
  | None => true
  | Some override =>
      match PyDict.get override "modules" with
      | None | Some (VList _) => true
      | Some _ => false
      end
  end.

(** ** Worlds to run the embedding in *)

(** Every process ends with [status], printing [out] and [err]; every file
    can be written; every data file holds [data]. *)
Definition steady_world (status : Z) (out err : string) (data : ndarray) : world :=
  {| w_spawn := fun _ _ _ => inr {| exit_status := status; out_text := out; err_text := err |};
     w_write := fun _ _ => None;
     w_loadtxt := fun _ => inr data;
     w_savefig := fun _ => None;
     w_clock := fun n => str_of_nat n +++ ".0" |}.

(** No process can be started and no file written. *)
Definition broken_world : world :=
  {| w_spawn := fun _ _ _ => inl (OSError "No such file or directory");
     w_write := fun _ _ => Some (OSError "Permission denied");
     w_loadtxt := fun _ => inl (OSError "not found");
     w_savefig := fun _ => Some (OSError "Permission denied");
     w_clock := fun n => str_of_nat n +++ ".0" |}.

(** Files can be written, processes cannot be started. *)
Definition no_sbatch_world : world :=
  {| w_spawn := fun _ _ _ => inl (OSError "No such file or directory");
     w_write := fun _ _ => None;
     w_loadtxt := fun _ => inl (OSError "not found");
     w_savefig := fun _ => None;
     w_clock := fun n => str_of_nat n +++ ".0" |}.

(** ** Formatting numbers *)

(** ['%02d' % z] *)
Definition fmt_02d (z : Z) : string :=
  let s := str_of_Z z in
  if (String.length s <? 2)%nat then "0" +++ s else s.

(** The integer nearest to a rational that is not negative, ties to even. *)
Definition round_half_even (q : Q) : Z :=
  let d := Zpos (Qden q) in
  let f := (Qnum q / d)%Z in
  let r := (Qnum q mod d)%Z in
  match (2 * r ?= d)%Z with
  | Lt => f
  | Gt => (f + 1)%Z
  | Eq => if Z.even f then f else (f + 1)%Z
  end.

(** ['%0.2f' % q]: the exact value rounded to two decimals. *)
Definition fmt_2f (q : Q) : string :=
  let cents := round_half_even (Qabs q * 100) in
  (if (Qnum q <? 0)%Z then "-" else "")
  +++ str_of_Z (cents / 100) +++ "." +++ fmt_02d (cents mod 100).

(** ** Sequences *)

(** [range(start, stop)] *)
Definition py_range (start stop : Z) : list Z :=
  map (fun k => (start + Z.of_nat k)%Z) (seq 0 (Z.to_nat (stop - start))).

(** [l[i]] for a list or a one-dimensional array. *)
Definition py_index {A : Type} (l : list A) (i : Z) : result A :=
  let n := Z.of_nat (List.length l) in
  let j := if (i <? 0)%Z then (i + n)%Z else i in
  if (j <? 0)%Z then raise (IndexError "list index out of range")
  else match nth_error l (Z.to_nat j) with
       | Some x => ret x
       | None => raise (IndexError "list index out of range")
       end.

(** [l[start:]] *)
Definition py_slice_from {A : Type} (l : list A) (start : Z) : list A :=
  let n := Z.of_nat (List.length l) in
  let j := if (start <? 0)%Z then Z.max 0 (start + n) else start in
  skipn (Z.to_nat j) l.

(** ** numpy *)

Definition one_dimensional : exn :=
  IndexError "too many indices for array: array is 1-dimensional, but 2 were indexed".

(** [data[:, 0]] and [data[:, 1]] *)
Definition column0 (data : ndarray) : result (list float) :=
  match data with
  | Arr1 _ => raise one_dimensional
  | Arr2 rows => ret (map fst rows)
  end.

Definition column1 (data : ndarray) : result (list float) :=
  match data with
  | Arr1 _ => raise one_dimensional
  | Arr2 rows => ret (map snd rows)
  end.

(** [data[start:, 0]] *)
Definition column0_from (data : ndarray) (start : Z) : result (list float) :=
  match data with
  | Arr1 _ => raise one_dimensional
  | Arr2 rows => ret (map fst (py_slice_from rows start))
  end.

(** [np.ones(n)]: [n] times 1.0 *)
Definition np_ones (n : Z) : result (list float) :=
  if (n <? 0)%Z then raise (ValueError "negative dimensions are not allowed")
  else ret (repeat (float_of_Z 1) (Z.to_nat n)).

(** [a / n] for an array and an [int]: each quotient rounded to binary64. *)
Definition np_divide (a : list float) (n : Z) : list float :=
  map (fun x => PrimFloat.div x (float_of_Z n)) a.

(** The sum of the products of two arrays, term by term: each product and
    each partial sum is rounded to binary64, the sum starting from 0.0 and
    taking the products in order (NumPy leaves the order of the additions
    to its kernel; the products and their number do not depend on it). *)
Definition dot (a v : list float) : float :=
  fold_left PrimFloat.add (map (fun p => PrimFloat.mul (fst p) (snd p)) (combine a v))
    (float_of_Z 0).

(** [np.correlate(a, v, 'valid')] for [len(a) >= len(v)]: one value for each
    place where [v] lies within [a]. *)
Definition correlate_valid (a v : list float) : list float :=
  map (fun k => dot (firstn (List.length v) (skipn k a)) v)
      (seq 0 (List.length a - List.length v + 1)).

(** [np.convolve(a, v, 'valid')]: the longer array first, neither empty,
    then the correlation with [v] reversed. *)
Definition np_convolve_valid (a v : list float) : result (list float) :=
  let av := if (List.length a <? List.length v)%nat then (v, a) else (a, v) in
  let a := fst av in
  let v := snd av in
  if (List.length a =? 0)%nat then raise (ValueError "a cannot be empty")
  else if (List.length v =? 0)%nat then raise (ValueError "v cannot be empty")
  else ret (correlate_valid a (rev v)).

(** [np.linspace(0, 1, num)] *)
Definition np_linspace01 (num : Z) : result (list Q) :=
  if (num <? 0)%Z
  then raise (ValueError ("Number of samples, " +++ str_of_Z num
                          +++ ", must be non-negative."))
  else ret (map (fun k => if (num =? 1)%Z then 0%Q
                          else (inject_Z (Z.of_nat k) / inject_Z (num - 1))%Q)
                (seq 0 (Z.to_nat num))).

(** [np.loadtxt(path, comments=['@', '#'])] *)
Definition np_loadtxt (path : string) : IO ndarray :=
  global "np" ;;
  call (Loadtxt path) ;;
  outcome <- ask (fun w => w_loadtxt w path) ;;
  lift outcome.

(** ** matplotlib, time and the notebook *)

(** A call through [plt]. *)
Definition plt_call (e : event) : IO unit := global "plt" ;; call e.

(** [plt.cm.viridis(np.linspace(0, 1, n))] *)
Definition viridis_colors (n : Z) : IO (list color) :=
  global "plt" ;;
  global "np" ;;
  positions <- lift (np_linspace01 n) ;;
  ret (map Viridis positions).

(** [ax.plot(xs, ys, ...)]: the two arrays must be as long as each other. *)
Definition ax_plot (xs ys : list float) (dashed : bool) (c : color) (label : string) : IO unit :=
  if (List.length xs =? List.length ys)%nat then call (PlotLine xs ys dashed c label)
  else raise (ValueError ("x and y must have same first dimension, but have shapes ("
                          +++ str_of_nat (List.length xs) +++ ",) and ("
                          +++ str_of_nat (List.length ys) +++ ",)")).

(** [plt.savefig(path, dpi = 300)] *)
Definition plt_savefig (path : string) : IO unit :=
  plt_call (Savefig path) ;;
  failure <- ask (fun w => w_savefig w path) ;;
  match failure with Some e => raise e | None => ret tt end.

(** [if("$" in ylabel): ax.yaxis.set_major_formatter(FuncFormatter(...))] *)
Definition scientific_if_dollar (ylabel : string) : IO unit :=
  if has_char "$"%char ylabel then global "FuncFormatter" ;; call ScientificYAxis
  else ret tt.

(** [time.time()], as the text [format] makes of it. *)
Definition time_time : IO string :=
  global "time" ;;
  fun w t => (t, inr (w_clock w (List.length t))).

(** [display(HTML(html))] *)
Definition display_html (html : string) : IO unit :=
  global "display" ;; global "HTML" ;; call (Display html).

(** ['<td><img src="{}?{}" style="width:100%"></td>'.format(src, stamp)] *)
Definition img_cell (src stamp : string) : string :=
  "<td><img src=" +++ dquote +++ src +++ "?" +++ stamp +++ dquote
  +++ " style=" +++ dquote +++ "width:100%" +++ dquote +++ "></td>".

(** ** The moving average (xvg_line, lines 138-140; xvg_multi_line, 192-193) *)

(** [window = np.ones(w) / w] then [np.convolve(data[:, 1], window, 'valid')] *)
Definition moving_average (data : ndarray) (w : Z) : result (list float) :=
  ones <- np_ones w ;;
  let window := np_divide ones w in
  ys <- column1 data ;;
  np_convolve_valid ys window.

(** [x in l] for strings. *)
Definition in_list (x : string) (l : list string) : bool := existsb (String.eqb x) l.

(** ** xvg_line (lines 102-159) *)

Definition xvg_line (title subtitle path ensemble xlabel ylabel label sufix : string)
    (movavg : Z) : IO unit :=
  data <- np_loadtxt (path +++ "/" +++ ensemble +++ sufix +++ ".xvg") ;;
  plt_call NewFigure ;;
  xs <- lift (column0 data) ;;
  ys <- lift (column1 data) ;;
  ax_plot xs ys false (Named "black") label ;;
  (if negb (movavg =? 0)%Z then
     let window_size := movavg in
     moving_avg <- lift (moving_average data window_size) ;;
     xs <- lift (column0_from data (window_size - 1)) ;;
     ax_plot xs moving_avg false (Named "red") "10 ps Moving average"
   else ret tt) ;;
  plt_call (Suptitle title) ;;
  plt_call (Title subtitle) ;;
  plt_call (Xlabel xlabel) ;;
  call (Ylabel ylabel) ;;
  scientific_if_dollar ylabel ;;
  call Legend ;;
  plt_savefig (path +++ "/" +++ ensemble +++ sufix +++ ".png") ;;
  plt_call CloseFigure.

(** ** xvg_multi_line (lines 161-205) *)

(** One round of the loop of lines 183-194. *)
Definition xvg_multi_line_replica (path label_prefix sufix : string) (movavg : Z)
    (plot_type : string) (colors : list color) (i : Z) : IO unit :=
  let data_path := path +++ "/replica" +++ fmt_02d (i + 1) +++ sufix +++ ".xvg" in
  data <- np_loadtxt data_path ;;
  let label := label_prefix +++ " " +++ str_of_Z (i + 1) in
  (if in_list plot_type ["both"; "values"] then
     xs <- lift (column0 data) ;;
     ys <- lift (column1 data) ;;
     c <- lift (py_index colors i) ;;
     ax_plot xs ys false c label
   else ret tt) ;;
  (if negb (movavg =? 0)%Z && in_list plot_type ["both"; "moving_average"] then
     moving_avg <- lift (moving_average data movavg) ;;
     xs <- lift (column0_from data (movavg - 1)) ;;
     c <- lift (py_index colors i) ;;
     ax_plot xs moving_avg true c (label +++ " MA")
   else ret tt).

Definition xvg_multi_line (title path ensemble xlabel ylabel label_prefix : string)
    (replicas : Z) (sufix : string) (movavg : Z) (plot_type : string) : IO unit :=
  plt_call NewFigure ;;
  colors <- viridis_colors replicas ;;
  for_each (py_range 0 replicas)
    (xvg_multi_line_replica path label_prefix sufix movavg plot_type colors) ;;
  plt_call (Suptitle title) ;;
  plt_call (Xlabel xlabel) ;;
  call (Ylabel ylabel) ;;
  scientific_if_dollar ylabel ;;
  call Legend ;;
  plt_savefig (path +++ "/" +++ ensemble +++ sufix +++ ".png") ;;
  plt_call CloseFigure.

(** ** xvg_multi_density (lines 207-239) *)

(** One round of the loop of lines 228-231. In
    [sns.kdeplot(data[:, 1], color=colors[i], bw_adjust=bandwidth, label=...)]
    the name [sns] is read first, then the arguments. *)
Definition xvg_multi_density_replica (path label_prefix sufix : string)
    (bandwidth : option Q) (colors : list color) (i : Z) : IO unit :=
  let data_path := path +++ "/replica" +++ fmt_02d (i + 1) +++ sufix +++ ".xvg" in
  data <- np_loadtxt data_path ;;
  global "sns" ;;
  ys <- lift (column1 data) ;;
  c <- lift (py_index colors i) ;;
  call (KdePlot ys c bandwidth (label_prefix +++ " " +++ str_of_Z (i + 1))).

Definition xvg_multi_density (title path ensemble xlabel ylabel label_prefix : string)
    (replicas : Z) (sufix : string) (bandwidth : option Q) : IO unit :=
  plt_call NewFigure ;;
  colors <- viridis_colors replicas ;;
  for_each (py_range 0 replicas)
    (xvg_multi_density_replica path label_prefix sufix bandwidth colors) ;;
  plt_call (Suptitle title) ;;
  plt_call (Xlabel xlabel) ;;
  plt_call (Ylabel ylabel) ;;
  plt_call Legend ;;
  plt_savefig (path +++ "/" +++ ensemble +++ sufix +++ "_density.png") ;;
  plt_call CloseFigure.

(** ** xvg (lines 241-299) *)

(** [values[i]], [values] being [None] by default. *)
Definition subscript_values (values : option (list Q)) (i : Z) : result Q :=
  match values with
  | None => raise (TypeError "'NoneType' object is not subscriptable")
  | Some l => py_index l i
  end.

(** The subtitle of the plot of replica directory [i] (lines 287-290). *)
Definition replica_subtitle (ensemble : string) (measure units : pyval)
    (values : option (list Q)) (i : Z) : result string :=
  if String.eqb ensemble "min" then ret ("Replica #" +++ fmt_02d (i - 1))
  else
    v <- subscript_values values (i - 1) ;;
    ret ("Replica #" +++ fmt_02d (i - 1) +++ " (" +++ py_str measure +++ " = "
         +++ fmt_2f v +++ py_str units +++ ")").

(** One round of the loop of lines 284-295, [html] being the table so far. *)
Definition xvg_replica (title path ensemble xlabel ylabel label : string)
    (measure units : pyval) (values : option (list Q)) (sufix : string) (movavg : Z)
    (i : Z) (html : string) : IO string :=
  let npath := path +++ "/replica" +++ fmt_02d i in
  subtitle <- lift (replica_subtitle ensemble measure units values i) ;;
  xvg_line title subtitle npath ensemble xlabel ylabel label sufix movavg ;;
  stamp <- time_time ;;
  let html := html +++ img_cell (npath +++ "/" +++ ensemble +++ sufix +++ ".png") stamp in
  let html := if (i mod 3 =? 0)%Z then html +++ "</tr>" else html in
  ret html.

(** [for x in l: state = body x state] *)
Fixpoint for_fold {A S : Type} (l : list A) (body : A -> S -> IO S) (s : S) : IO S :=
  match l with
  | [] => ret s
  | x :: rest => s' <- body x s ;; for_fold rest body s'
  end.

Definition xvg (title path ensemble xlabel ylabel label : string)
    (measure units : pyval) (values : option (list Q)) (replicas : option Z)
    (sufix : string) (movavg : Z) (multi_lines : bool) (plot_type : string) : IO unit :=
  let html := "<table>" in
  html <-
    match replicas with
    | None =>
        let subtitle := "" in
        xvg_line title subtitle path ensemble xlabel ylabel label sufix movavg ;;
        stamp <- time_time ;;
        ret (html +++ img_cell (path +++ "/" +++ ensemble +++ sufix +++ ".png") stamp)
    | Some replicas =>
        if multi_lines then
          xvg_multi_line title path ensemble xlabel ylabel label replicas sufix movavg
            plot_type ;;
          stamp <- time_time ;;
          ret (html +++ img_cell (path +++ "/" +++ ensemble +++ sufix +++ ".png") stamp)
        else
          for_fold (py_range 1 replicas)
            (xvg_replica title path ensemble xlabel ylabel label measure units values
               sufix movavg)
            html
    end ;;
  let html := html +++ "</table>" in
  display_html html.

(** ** Vocabulary of the statements about the plots *)



(** The weight of each value of a window of [w] values: 1.0 / w, rounded. *)
Definition weight (w : Z) : float := PrimFloat.div (float_of_Z 1) (float_of_Z w).

(** The [w] values of [ys] from row [k] on. *)
Definition window_at (ys : list float) (w : Z) (k : nat) : list float :=
  firstn (Z.to_nat w) (skipn k ys).

(** The calls of [xvg_line] on the table [rows], up to the saving of the
    figure: the data line, the moving-average line when one is asked for and
    the titles. *)
Definition overlay_line (rows : list (float * float)) (movavg : Z) (avg : list float)
    : event :=
  PlotLine (map fst (py_slice_from rows (movavg - 1))) avg false (Named "red")
    "10 ps Moving average".

Definition overlay_calls (rows : list (float * float)) (movavg : Z) : list event :=
  if (movavg =? 0)%Z then []
  else match moving_average (Arr2 rows) movavg with
       | inr avg => [overlay_line rows movavg avg]
       | inl _ => []
       end.

Definition xvg_line_calls (title subtitle path ensemble xlabel ylabel label sufix : string)
    (movavg : Z) (rows : list (float * float)) : list event :=
  [ Loadtxt (path +++ "/" +++ ensemble +++ sufix +++ ".xvg");
    NewFigure;
    PlotLine (map fst rows) (map snd rows) false (Named "black") label ]
  ++ overlay_calls rows movavg
  ++ [ Suptitle title; Title subtitle; Xlabel xlabel; Ylabel ylabel ]
  ++ (if has_char "$"%char ylabel then [ScientificYAxis] else [])
  ++ [ Legend; Savefig (path +++ "/" +++ ensemble +++ sufix +++ ".png") ].

(** The data files read and the figures saved, in the order of the trace. *)
Definition files_read (trace : list event) : list string :=
  flat_map (fun e => match e with Loadtxt p => [p] | _ => [] end) trace.

Definition figures_saved (trace : list event) : list string :=
  flat_map (fun e => match e with Savefig p => [p] | _ => [] end) trace.

Definition kde_calls (trace : list event) : nat :=
  List.length (filter (fun e => match e with KdePlot _ _ _ _ => true | _ => false end) trace).

(** A table of a hundred rows: the times 0, 1, ... and the squares of the
    times. *)
Definition hundred_rows : list (float * float) :=
  map (fun k => (float_of_Z (Z.of_nat k), float_of_Z (Z.of_nat (k * k)))) (seq 0 100).

(** The directory, the data file and the figure of replica [i], and its cell
    of the gallery with the end of row that follows every third one. *)
Definition replica_dir (path : string) (i : Z) : string :=
  path +++ "/replica" +++ fmt_02d i.

Definition replica_xvg (path ensemble sufix : string) (i : Z) : string :=
  replica_dir path i +++ "/" +++ ensemble +++ sufix +++ ".xvg".

Definition replica_png (path ensemble sufix : string) (i : Z) : string :=
  replica_dir path i +++ "/" +++ ensemble +++ sufix +++ ".png".

Definition replica_cell (path ensemble sufix : string) (i : Z) (stamp : string) : string :=
  "<td><img src=" +++ dquote +++ replica_png path ensemble sufix i +++ "?" +++ stamp
  +++ dquote +++ " style=" +++ dquote +++ "width:100%" +++ dquote +++ "></td>"
  +++ (if (i mod 3 =? 0)%Z then "</tr>" else "").

(** The data file of replica [i] loads as a table that the window fits, and
    its figure can be saved. *)
Definition replica_ready (w : world) (path ensemble sufix : string) (movavg : Z) (i : Z)
    : Prop :=
  (exists rows,
     w_loadtxt w (replica_xvg path ensemble sufix i) = inr (Arr2 rows)
     /\ (movavg = 0%Z \/ (1 <= movavg <= Z.of_nat (List.length rows))%Z))
  /\ w_savefig w (replica_png path ensemble sufix i) = None.

(** The cells of the replicas [indices], one time stamp each. *)
Fixpoint gallery (path ensemble sufix : string) (indices : list Z) (stamps : list string)
    : string :=
  match indices, stamps with
  | i :: indices, stamp :: stamps =>
      replica_cell path ensemble sufix i stamp +++ gallery path ensemble sufix indices stamps
  | _, _ => ""
  end.

(** ** Further vocabulary: what a trace holds *)

(** The files written and the processes started, in the order of the trace. *)
Definition files_written (trace : list event) : list string :=
  flat_map (fun e => match e with WriteFile p _ => [p] | _ => [] end) trace.

Definition processes_started (trace : list event) : list (list string) :=
  flat_map (fun e => match e with SubprocessRun cmd _ _ _ => [cmd] | _ => [] end) trace.

(** The lines drawn, dashed or not, and the tables displayed. *)
Definition lines_drawn (trace : list event) : list bool :=
  flat_map (fun e => match e with PlotLine _ _ dashed _ _ => [dashed] | _ => [] end) trace.

Definition displayed (trace : list event) : list string :=
  flat_map (fun e => match e with Display html => [html] | _ => [] end) trace.

(** The keys of the configuration that the batch script reads (lines 77-84). *)
Definition script_keys : list string :=
  [ "job_name"; "output"; "partition"; "nodes"; "ntasks"; "ntasks_per_node"; "modules" ].

(** What the caller's mapping, if any, holds under a key. *)
Definition override_get (scheduler : option config) (key : string) : option pyval :=
  match scheduler with
  | None => None
  | Some override => PyDict.get override key
  end.

(** [int(s)] for a decimal numeral. *)
Definition int_of_str (s : string) : option Z :=
  option_map Z.of_int (NilZero.int_of_string s).

(** A computation that adds to the trace, in every world and whatever was
    called before, only calls that satisfy [P]. *)
Definition only (P : event -> Prop) {A : Type} (m : IO A) : Prop :=
  forall w t, exists added, fst (m w t) = t ++ added /\ Forall P added.

Definition not_display (e : event) : Prop :=
  match e with Display _ => False | _ => True end.

(** ** Vocabulary of the statements about xvg_multi_line *)

(** A round of [xvg_multi_line] computes a moving average (line 191). *)
Definition needs_average (movavg : Z) (plot_type : string) : bool :=
  negb (movavg =? 0)%Z && in_list plot_type ["both"; "moving_average"].

(** The data file of round [i], [i] counting from 0 (lines 184, 229). *)
Definition replica_file (path sufix : string) (i : Z) : string :=
  path +++ "/replica" +++ fmt_02d (i + 1) +++ sufix +++ ".xvg".

(** The kinds of line a round draws: solid ([false]) for the values, dashed
    ([true]) for the moving average. *)
Definition round_lines (movavg : Z) (plot_type : string) : list bool :=
  (if in_list plot_type ["both"; "values"] then [false] else [])
  ++ (if needs_average movavg plot_type then [true] else []).

(** The data file of round [i] loads as a table, which the window fits when
    a moving average is computed. *)
Definition round_ready (w : world) (path sufix : string) (movavg : Z) (plot_type : string)
    (i : Z) : Prop :=
  exists rows,
    w_loadtxt w (replica_file path sufix i) = inr (Arr2 rows)
    /\ (needs_average movavg plot_type = false
        \/ (1 <= movavg <= Z.of_nat (List.length rows))%Z).

(** The last line of a text: what follows its last line feed. *)
Fixpoint last_line (s : string) : string :=
  match s with
  | EmptyString => EmptyString
  | String c rest =>
      if has_char (ascii_of_nat 10) rest then last_line rest
      else if Ascii.eqb c (ascii_of_nat 10) then rest
      else s
  end.




(** * Properties *)

Lemma extend_flags_flat (mapping : PyDict.t string) :
  forall cmd, extend_flags cmd mapping = cmd ++ flag_pairs mapping.
Proof.
  unfold extend_flags, flag_pairs, PyDict.items.
  induction mapping as [|[flag file] rest IH]; intros cmd; simpl.
  - now rewrite app_nil_r.
  - rewrite IH, <- app_assoc. reflexivity.
Qed.

(** The command line laid out flat. *)
Lemma gmx_cmd_flat (executable : string) (arguments : list string)
    (inputs outputs : PyDict.t string) :
  gmx_cmd executable arguments inputs outputs
  = launcher executable ++ executable :: arguments
      ++ flag_pairs inputs ++ flag_pairs outputs.
Proof.
  unfold gmx_cmd, launcher.
  rewrite !extend_flags_flat.
  destruct (String.eqb executable "mdrun"); simpl; now rewrite <- !app_assoc.
Qed.

(** C1: the command line is the launcher words, the executable name, the free
    arguments in order, then every input flag followed by its path and every
    output flag followed by its path, both in the iteration order of their
    mapping. *)
Theorem gmx_cmd_layout (executable : string) (arguments : list string)
    (inputs outputs : PyDict.t string) :
  gmx_cmd executable arguments inputs outputs
  = launcher executable ++ [executable] ++ arguments
      ++ flag_pairs inputs ++ flag_pairs outputs.
Proof.
  rewrite gmx_cmd_flat. reflexivity.
Qed.

(** C6: the command starts with the parallel launcher exactly when the
    executable is [mdrun]; for any other executable it starts with [gmx]. *)
Theorem gmx_cmd_launcher (executable : string) (arguments : list string)
    (inputs outputs : PyDict.t string) :
  let cmd := gmx_cmd executable arguments inputs outputs in
  (firstn 2 cmd = ["mpirun"; "gmx_mpi"] <-> executable = "mdrun")
  /\ (executable <> "mdrun" <-> firstn 2 cmd = ["gmx"; executable]).
Proof.
  cbv zeta. rewrite gmx_cmd_flat. unfold launcher.
  destruct (String.eqb_spec executable "mdrun") as [E|E]; simpl.
  - split; split; intros H; try reflexivity; try assumption.
    + congruence.
    + discriminate H.
  - split; split; intros H; try reflexivity; try assumption.
    + discriminate H.
    + contradiction.
Qed.

Example py_str_int : py_str (VInt 10) = "10" /\ py_str (VInt 0) = "0" /\ py_str (VInt (-3)) = "-3".
Proof. repeat split. Qed.

Example py_str_list :
  py_str (VList ["module load a"; "it's"])
  = "['module load a', " +++ dquote +++ "it's" +++ dquote +++ "]".
Proof. reflexivity. Qed.

(** *** Dictionary lemmas *)

Section DictFacts.
Variable V : Type.
Implicit Types (d : PyDict.t V) (k : string) (v : V).

Lemma get_set_same d k v : PyDict.get (PyDict.set d k v) k = Some v.
Proof.
  induction d as [|[k' v'] rest IH]; simpl.
  - now rewrite String.eqb_refl.
  - destruct (String.eqb k' k) eqn:E; simpl.
    + now rewrite String.eqb_refl.
    + now rewrite E.
Qed.

Lemma get_set_other d k k' v :
  k <> k' -> PyDict.get (PyDict.set d k v) k' = PyDict.get d k'.
Proof.
  intros Hne. induction d as [|[k0 v0] rest IH]; simpl.
  - destruct (String.eqb_spec k k'); [contradiction | reflexivity].
  - destruct (String.eqb_spec k0 k) as [->|Hk]; simpl.
    + destruct (String.eqb_spec k k'); [contradiction | reflexivity].
    + destruct (String.eqb_spec k0 k'); [reflexivity | exact IH].
Qed.

Lemma get_of_key d k : In k (PyDict.keys d) -> exists v, PyDict.get d k = Some v.
Proof.
  induction d as [|[k0 v0] rest IH]; simpl; [contradiction|].
  intros [->|Hin].
  - exists v0. now rewrite String.eqb_refl.
  - destruct (String.eqb k0 k); [now exists v0 | now apply IH].
Qed.

Lemma key_of_get d k v : PyDict.get d k = Some v -> In k (PyDict.keys d).
Proof.
  induction d as [|[k0 v0] rest IH]; simpl; [discriminate|].
  destruct (String.eqb_spec k0 k) as [->|Hk]; intros H.
  - now left.
  - right. now apply IH.
Qed.

End DictFacts.

(** The override loop sets every visited key to the override's value and
    leaves the other keys alone. *)
Lemma override_keys_spec (scheduler : config) (todo : list string) :
  (forall key, In key todo -> In key (PyDict.keys scheduler)) ->
  forall schdlr, exists merged,
    override_keys scheduler todo schdlr = inr merged
    /\ forall key,
         PyDict.get merged key
         = if in_dec string_dec key todo
           then PyDict.get scheduler key else PyDict.get schdlr key.
Proof.
  induction todo as [|k rest IH]; intros Hin schdlr; simpl.
  - exists schdlr. split; [reflexivity | intros; reflexivity].
  - destruct (get_of_key scheduler k (Hin k (or_introl eq_refl))) as [v Hv].
    unfold subscript. rewrite Hv. simpl.
    destruct (IH (fun key H => Hin key (or_intror H)) (PyDict.set schdlr k v))
      as [merged [Hrun Hget]].
    exists merged. split; [exact Hrun|].
    intros key. rewrite Hget.
    destruct (in_dec string_dec key rest) as [Hr|Hr].
    + destruct (string_dec k key); reflexivity.
    + destruct (string_dec k key) as [->|Hne].
      * now rewrite get_set_same.
      * now rewrite get_set_other.
Qed.

(** The merge never fails, whatever the base mapping. *)
Lemma merge_scheduler_get (defaults : config) (scheduler : option config) :
  exists merged,
    merge_scheduler defaults scheduler = inr merged
    /\ forall key,
         PyDict.get merged key
         = match scheduler with
           | None => PyDict.get defaults key
           | Some override =>
               match PyDict.get override key with
               | Some v => Some v
               | None => PyDict.get defaults key
               end
           end.
Proof.
  destruct scheduler as [override|]; simpl.
  - destruct (override_keys_spec override (PyDict.keys override) (fun _ H => H) defaults)
      as [merged [Hrun Hget]].
    exists merged. split; [exact Hrun|].
    intros key. rewrite Hget.
    destruct (in_dec string_dec key (PyDict.keys override)) as [Hin|Hout].
    + destruct (get_of_key override key Hin) as [v Hv]. now rewrite Hv.
    + destruct (PyDict.get override key) as [v|] eqn:Hv; [|reflexivity].
      exfalso. apply Hout. eapply key_of_get; eauto.
  - eexists. split; reflexivity.
Qed.

(** C5: merging a caller-supplied scheduler mapping into the defaults always
    succeeds; the merged configuration holds the override's value on every
    key of the override and the default's value on every other key (and is
    the default mapping when no override is given). *)
Theorem merge_scheduler_override_wins (name ensemble : string) (scheduler : option config) :
  let defaults := default_schdlr name ensemble in
  exists merged,
    merge_scheduler defaults scheduler = inr merged
    /\ forall key,
         PyDict.get merged key
         = match scheduler with
           | None => PyDict.get defaults key
           | Some override =>
               match PyDict.get override key with
               | Some v => Some v
               | None => PyDict.get defaults key
               end
           end.
Proof.
  cbv zeta. apply merge_scheduler_get.
Qed.

Example merge_partition_only :
  merge_scheduler (default_schdlr "sim" "npt") (Some [("partition", VStr "gpu"); ("qos", VInt 2)])
  = inr [ ("job_name", VStr "simnpt"); ("output", VStr "npt.slurm.log");
          ("partition", VStr "gpu"); ("nodes", VStr "1-12");
          ("ntasks_per_node", VStr "1"); ("ntasks", VStr "10");
          ("modules", VList ["module load mpi/mpich-x86_64";
                             "module load gromacs/2023.5-plumed"]);
          ("qos", VInt 2) ].
Proof. reflexivity. Qed.

(** ** gmx: parameter validation *)

(** C2: [gmx] on [mdrun] with the name, the ensemble or the path missing
    raises [ValueError] and makes no outside call at all before that: the
    trace is empty, so no file is opened or written. *)
Theorem gmx_mdrun_missing_parameter (arguments : list string)
    (inputs outputs : PyDict.t string) (name path ensemble : option string)
    (scheduler : option config) (wait : bool) (stdin : option string) (w : world) :
  name = None \/ ensemble = None \/ path = None ->
  exists msg,
    run (gmx "mdrun" arguments inputs outputs name path ensemble scheduler wait stdin) w
    = ([], inl (ValueError msg)).
Proof.
  intros H. unfold run, gmx. simpl.
  destruct ensemble as [ensemble|]; [|eexists; reflexivity].
  destruct name as [name|]; [|eexists; reflexivity].
  destruct path as [path|]; [|eexists; reflexivity].
  destruct H as [H|[H|H]]; discriminate H.
Qed.

Lemma gmx_mdrun_missing_parameter_witness :
  exists msg,
    run (gmx "mdrun" ["-v"] [("-s", "npt.tpr")] [] (Some "sim") None (Some "npt")
           None false None) (steady_world 0 "" "" (Arr2 []))
    = ([], inl (ValueError msg)).
Proof.
  apply gmx_mdrun_missing_parameter. right; right; reflexivity.
Defined.

Example gmx_mdrun_no_path :
  run (gmx "mdrun" ["-v"] [("-s", "npt.tpr")] [] (Some "sim") None (Some "npt")
         None false None) broken_world
  = ([], inl (ValueError "path must be provided.")).
Proof. reflexivity. Qed.

(** ** gmx: the batch script *)

Lemma append_assoc (a b c : string) : (a +++ b) +++ c = a +++ b +++ c.
Proof. induction a as [|ch a IH]; simpl; [reflexivity | now rewrite IH]. Qed.

Lemma join_snoc (sep : string) (front : list string) (x : string) :
  front <> [] -> join sep (front ++ [x]) = join sep front +++ sep +++ x.
Proof.
  unfold join. induction front as [|y rest IH]; intros Hne; [congruence|].
  destruct rest as [|z rest].
  - reflexivity.
  - change (y +++ sep +++ String.concat sep ((z :: rest) ++ [x])
            = (y +++ sep +++ String.concat sep (z :: rest)) +++ sep +++ x).
    rewrite IH by discriminate. now rewrite !append_assoc.
Qed.

(** A key of the defaults is a key of the merged configuration. *)
Lemma merged_has_key (defaults : config) (scheduler : option config) (merged : config)
    (key : string) (d : pyval) :
  merge_scheduler defaults scheduler = inr merged ->
  PyDict.get defaults key = Some d ->
  exists v, PyDict.get merged key = Some v.
Proof.
  intros Hm Hd.
  destruct (merge_scheduler_get defaults scheduler) as [merged' [Hrun Hget]].
  rewrite Hm in Hrun. injection Hrun as <-.
  rewrite Hget. destruct scheduler as [override|].
  - destruct (PyDict.get override key) as [v|]; eauto.
  - eauto.
Qed.

Lemma merged_modules (name ensemble : string) (scheduler : option config) (merged : config) :
  modules_is_list scheduler = true ->
  merge_scheduler (default_schdlr name ensemble) scheduler = inr merged ->
  exists ms, PyDict.get merged "modules" = Some (VList ms).
Proof.
  intros Hok Hm.
  destruct (merge_scheduler_get (default_schdlr name ensemble) scheduler)
    as [merged' [Hrun Hget]].
  rewrite Hm in Hrun. injection Hrun as <-.
  rewrite Hget. destruct scheduler as [override|]; simpl in *.
  - destruct (PyDict.get override "modules") as [[| | |ms]|]; try discriminate; eauto.
  - eauto.
Qed.

(** The lines of the script, given the seven values it reads. *)
Lemma batch_script_lines (schdlr : config) (cmd : list string)
    (job_name output partition nodes ntasks ntasks_per_node : pyval) (ms : list string) :
  PyDict.get schdlr "job_name" = Some job_name ->
  PyDict.get schdlr "output" = Some output ->
  PyDict.get schdlr "partition" = Some partition ->
  PyDict.get schdlr "nodes" = Some nodes ->
  PyDict.get schdlr "ntasks" = Some ntasks ->
  PyDict.get schdlr "ntasks_per_node" = Some ntasks_per_node ->
  PyDict.get schdlr "modules" = Some (VList ms) ->
  batch_script schdlr cmd
  = inr ([ "#!/bin/bash";
           "";
           "#SBATCH --job-name=" +++ py_str job_name;
           "#SBATCH --output=" +++ py_str output;
           if is_none partition then "" else "#SBATCH --partition=" +++ py_str partition;
           if is_none nodes then "" else "#SBATCH --nodes=" +++ py_str nodes;
           "#SBATCH --ntasks=" +++ py_str ntasks;
           if is_none ntasks_per_node then ""
           else "#SBATCH --ntasks-per-node=" +++ py_str ntasks_per_node;
           "";
           "# Required modules" ]
         ++ ms
         ++ [ ""; "# Run the molecular dynamics simulation"; join " " cmd ]).
Proof.
  intros H1 H2 H3 H4 H5 H6 H7. unfold batch_script, subscript.
  rewrite H1, H2, H3, H4, H5, H6, H7. simpl.
  destruct (is_none partition), (is_none nodes), (is_none ntasks_per_node); reflexivity.
Qed.

(** With [modules] a list, the merged configuration always yields a script. *)
Lemma batch_script_of_merge (name ensemble : string) (scheduler : option config)
    (cmd : list string) :
  modules_is_list scheduler = true ->
  exists schdlr job_name output partition nodes ntasks ntasks_per_node ms,
    merge_scheduler (default_schdlr name ensemble) scheduler = inr schdlr
    /\ PyDict.get schdlr "job_name" = Some job_name
    /\ PyDict.get schdlr "output" = Some output
    /\ PyDict.get schdlr "partition" = Some partition
    /\ PyDict.get schdlr "nodes" = Some nodes
    /\ PyDict.get schdlr "ntasks" = Some ntasks
    /\ PyDict.get schdlr "ntasks_per_node" = Some ntasks_per_node
    /\ PyDict.get schdlr "modules" = Some (VList ms).
Proof.
  intros Hok.
  destruct (merge_scheduler_get (default_schdlr name ensemble) scheduler) as [schdlr [Hm _]].
  destruct (merged_has_key _ _ "job_name" Hm eq_refl) as [v1 H1].
  destruct (merged_has_key _ _ "output" Hm eq_refl) as [v2 H2].
  destruct (merged_has_key _ _ "partition" Hm eq_refl) as [v3 H3].
  destruct (merged_has_key _ _ "nodes" Hm eq_refl) as [v4 H4].
  destruct (merged_has_key _ _ "ntasks" Hm eq_refl) as [v5 H5].
  destruct (merged_has_key _ _ "ntasks_per_node" Hm eq_refl) as [v6 H6].
  destruct (merged_modules _ _ _ Hok Hm) as [ms H7].
  exists schdlr, v1, v2, v3, v4, v5, v6, ms. repeat split; assumption.
Qed.

(** C3 (as amended): when [modules] is a list the script is always
    produced, and in it
    - the partition, nodes and ntasks-per-node directives keep their line:
      the line is empty when the value is [None] and is
      [#SBATCH --option=value] otherwise;
    - the job-name, output and ntasks directives, when their value is not
      [None], are the line [#SBATCH --option=value]. *)
Theorem batch_script_directives (name ensemble : string) (scheduler : option config)
    (cmd : list string) :
  modules_is_list scheduler = true ->
  exists schdlr lines,
    merge_scheduler (default_schdlr name ensemble) scheduler = inr schdlr
    /\ batch_script schdlr cmd = inr lines
    /\ (forall d, In d guarded_directives ->
          exists v, PyDict.get schdlr (d_key d) = Some v
                    /\ nth_error lines (d_line d)
                       = Some (if is_none v then "" else directive_line d v))
    /\ (forall d, In d unguarded_directives ->
          exists v, PyDict.get schdlr (d_key d) = Some v
                    /\ (is_none v = false ->
                        nth_error lines (d_line d) = Some (directive_line d v))).
Proof.
  intros Hok.
  destruct (batch_script_of_merge name ensemble scheduler cmd Hok)
    as (schdlr & v1 & v2 & v3 & v4 & v5 & v6 & ms & Hm & H1 & H2 & H3 & H4 & H5 & H6 & H7).
  exists schdlr. eexists. split; [exact Hm|].
  split; [apply (batch_script_lines schdlr cmd H1 H2 H3 H4 H5 H6 H7)|].
  split.
  - intros d [<-|[<-|[<-|[]]]]; simpl; eexists; (split; [eassumption|]);
      match goal with |- context [is_none ?v] => destruct (is_none v) end; reflexivity.
  - intros d [<-|[<-|[<-|[]]]]; simpl; eexists; (split; [eassumption|]);
      intros _; reflexivity.
Qed.

Lemma batch_script_directives_witness :
  exists schdlr lines,
    merge_scheduler (default_schdlr "sim" "npt")
      (Some [("partition", VNone); ("nodes", VInt 2)]) = inr schdlr
    /\ batch_script schdlr ["mpirun"; "gmx_mpi"; "mdrun"] = inr lines
    /\ (forall d, In d guarded_directives ->
          exists v, PyDict.get schdlr (d_key d) = Some v
                    /\ nth_error lines (d_line d)
                       = Some (if is_none v then "" else directive_line d v))
    /\ (forall d, In d unguarded_directives ->
          exists v, PyDict.get schdlr (d_key d) = Some v
                    /\ (is_none v = false ->
                        nth_error lines (d_line d) = Some (directive_line d v))).
Proof.
  apply batch_script_directives. reflexivity.
Defined.

(** C3 (as stated) fails: with the partition overridden to [None] the script
    keeps an empty line where the directive stood, so it has one line more
    than the script that leaves the directive out. *)
Lemma batch_script_null_partition_keeps_line :
  let cmd := ["mpirun"; "gmx_mpi"; "mdrun"] in
  exists schdlr modules lines,
    merge_scheduler (default_schdlr "sim" "npt") (Some [("partition", VNone)]) = inr schdlr
    /\ PyDict.get schdlr "partition" = Some VNone
    /\ PyDict.get schdlr "modules" = Some (VList modules)
    /\ batch_script schdlr cmd = inr lines
    /\ nth_error lines 4 = Some ""
    /\ List.length lines = 15%nat
    /\ List.length (spec_batch_script schdlr modules cmd) = 14%nat
    /\ lines <> spec_batch_script schdlr modules cmd.
Proof.
  cbv zeta. do 3 eexists.
  split; [reflexivity|]. split; [reflexivity|]. split; [reflexivity|].
  split; [reflexivity|]. split; [reflexivity|]. split; [reflexivity|].
  split; [reflexivity|]. discriminate.
Qed.

(** The unguarded directives print [None] as a value. *)
Example batch_script_null_job_name :
  exists schdlr lines,
    merge_scheduler (default_schdlr "sim" "npt") (Some [("job_name", VNone)]) = inr schdlr
    /\ batch_script schdlr ["mpirun"; "gmx_mpi"; "mdrun"] = inr lines
    /\ nth_error lines 2 = Some "#SBATCH --job-name=None".
Proof. do 2 eexists. repeat split. Qed.

Example batch_script_default :
  batch_script (default_schdlr "sim" "npt") ["mpirun"; "gmx_mpi"; "mdrun"; "-v"]
  = inr [ "#!/bin/bash"; "";
          "#SBATCH --job-name=simnpt";
          "#SBATCH --output=npt.slurm.log";
          "#SBATCH --partition=andromeda";
          "#SBATCH --nodes=1-12";
          "#SBATCH --ntasks=10";
          "#SBATCH --ntasks-per-node=1";
          "";
          "# Required modules";
          "module load mpi/mpich-x86_64";
          "module load gromacs/2023.5-plumed";
          "";
          "# Run the molecular dynamics simulation";
          "mpirun gmx_mpi mdrun -v" ].
Proof. reflexivity. Qed.

(** ** gmx: the two modes, run in a world *)

(** Unfolding the library calls down to the world's answers. *)
Ltac io_unfold :=
  unfold subprocess_run, write_text, print, global, call, ask, lift; simpl.

(** Direct mode: one process, then its two outputs printed. *)
Lemma gmx_direct_run (executable : string) (arguments : list string)
    (inputs outputs : PyDict.t string) (name path ensemble : option string)
    (scheduler : option config) (wait : bool) (stdin : option string) (w : world) :
  executable <> "mdrun" ->
  let cmd := gmx_cmd executable arguments inputs outputs in
  run (gmx executable arguments inputs outputs name path ensemble scheduler wait stdin) w
  = match w_spawn w cmd path stdin with
    | inl e => ([SubprocessRun cmd path stdin true], inl e)
    | inr p => ([SubprocessRun cmd path stdin true; Print (out_text p); Print (err_text p)],
                inr tt)
    end.
Proof.
  intros Hne. cbv zeta. unfold run, gmx.
  destruct (String.eqb_spec executable "mdrun") as [E|_]; [contradiction|].
  io_unfold. destruct (w_spawn w _ path stdin) as [e|p]; reflexivity.
Qed.

(** Scheduled mode with its three parameters given: the script is written,
    then submitted. *)
Lemma gmx_scheduled_run (arguments : list string) (inputs outputs : PyDict.t string)
    (name path ensemble : string) (scheduler : option config) (wait : bool)
    (stdin : option string) (w : world) (schdlr : config) (lines : list string) :
  let cmd := gmx_cmd "mdrun" arguments inputs outputs in
  merge_scheduler (default_schdlr name ensemble) scheduler = inr schdlr ->
  batch_script schdlr cmd = inr lines ->
  let script := path +++ "/" +++ ensemble +++ ".slurm" in
  let written := WriteFile script (join nl lines) in
  let submitted := SubprocessRun (sbatch_cmd ensemble wait) (Some path) None false in
  run (gmx "mdrun" arguments inputs outputs (Some name) (Some path) (Some ensemble)
         scheduler wait stdin) w
  = match w_write w script (join nl lines) with
    | Some e => ([written], inl e)
    | None =>
        match w_spawn w (sbatch_cmd ensemble wait) (Some path) None with
        | inl e => ([written; submitted], inl e)
        | inr _ => ([written; submitted], inr tt)
        end
    end.
Proof.
  cbv zeta. intros Hm Hb. unfold run, gmx. simpl.
  rewrite Hm, Hb. unfold sbatch_cmd. io_unfold.
  destruct (w_write w _ _) as [e|]; [reflexivity|].
  destruct wait; simpl; destruct (w_spawn w _ _ _) as [e|p]; reflexivity.
Qed.

Lemma has_char_append (c : ascii) (a b : string) :
  has_char c (a +++ b) = has_char c a || has_char c b.
Proof.
  unfold has_char. induction a as [|x a IH]; simpl; [reflexivity|].
  rewrite IH. now rewrite orb_assoc.
Qed.

Lemma last_line_after_feed (before line : string) :
  has_char (ascii_of_nat 10) line = false ->
  last_line (before +++ nl +++ line) = line.
Proof.
  intros Hline. induction before as [|c before IH].
  - change (EmptyString +++ nl +++ line) with (String (ascii_of_nat 10) line).
    simpl. rewrite Hline. reflexivity.
  - change (String c before +++ nl +++ line) with (String c (before +++ nl +++ line)).
    simpl last_line. rewrite has_char_append.
    change (nl +++ line) with (String (ascii_of_nat 10) line).
    replace (has_char (ascii_of_nat 10) (String (ascii_of_nat 10) line)) with true
      by reflexivity.
    rewrite orb_true_r. exact IH.
Qed.

(** C7 (as stated) fails: a word of the command with a line feed in it
    splits the command over two lines of the script, and the last line
    written is only the tail of the command. *)
Lemma gmx_script_splits_command :
  let arguments := ["-v" +++ nl +++ "touch /tmp/x"] in
  let cmd := gmx_cmd "mdrun" arguments [] [] in
  exists text rest outcome,
    run (gmx "mdrun" arguments [] [] (Some "sim") (Some "/scratch/run") (Some "npt")
           None false None) (steady_world 0 "" "" (Arr2 []))
    = (WriteFile "/scratch/run/npt.slurm" text :: rest, outcome)
    /\ last_line text = "touch /tmp/x"
    /\ join " " cmd = "mpirun gmx_mpi mdrun -v" +++ nl +++ "touch /tmp/x"
    /\ last_line text <> join " " cmd.
Proof.
  cbv zeta. do 3 eexists.
  split; [lazy; reflexivity|]. split; [reflexivity|]. split; [reflexivity|].
  discriminate.
Qed.

(** C7 (as amended): in scheduled mode with the name, the path and the
    ensemble given (and [modules] a list), the first outside call of [gmx]
    writes the file [<path>/<ensemble>.slurm]; the text written is the lines
    of the script joined by line feeds, the last of these lines being the
    command line joined by single spaces; and when no word of the command
    holds a line feed, the last line of the text written, what follows its
    last line feed, is that command line. *)
Theorem gmx_writes_script (arguments : list string) (inputs outputs : PyDict.t string)
    (name path ensemble : string) (scheduler : option config) (wait : bool)
    (stdin : option string) (w : world) :
  modules_is_list scheduler = true ->
  let cmd := gmx_cmd "mdrun" arguments inputs outputs in
  exists schdlr front rest outcome,
    merge_scheduler (default_schdlr name ensemble) scheduler = inr schdlr
    /\ batch_script schdlr cmd = inr (front ++ [join " " cmd])
    /\ run (gmx "mdrun" arguments inputs outputs (Some name) (Some path) (Some ensemble)
              scheduler wait stdin) w
       = (WriteFile (path +++ "/" +++ ensemble +++ ".slurm")
            (join nl (front ++ [join " " cmd])) :: rest, outcome)
    /\ join nl (front ++ [join " " cmd]) = join nl front +++ nl +++ join " " cmd
    /\ (has_char (ascii_of_nat 10) (join " " cmd) = false ->
        last_line (join nl (front ++ [join " " cmd])) = join " " cmd).
Proof.
  intros Hok. cbv zeta.
  set (cmd := gmx_cmd "mdrun" arguments inputs outputs).
  destruct (batch_script_of_merge name ensemble scheduler cmd Hok)
    as (schdlr & v1 & v2 & v3 & v4 & v5 & v6 & ms & Hm & H1 & H2 & H3 & H4 & H5 & H6 & H7).
  pose proof (batch_script_lines schdlr cmd H1 H2 H3 H4 H5 H6 H7) as Hb.
  match type of Hb with
  | _ = inr (?pre ++ ms ++ [?a; ?b; ?c]) =>
      assert (Hsplit : pre ++ ms ++ [a; b; c] = (pre ++ ms ++ [a; b]) ++ [c])
        by (rewrite <- !app_assoc; reflexivity);
      rewrite Hsplit in Hb; clear Hsplit;
      set (front := pre ++ ms ++ [a; b]) in *;
      assert (Hfront : front <> []) by discriminate;
      exists schdlr, front
  end.
  pose proof (gmx_scheduled_run arguments inputs outputs name path ensemble scheduler wait
                stdin w Hm Hb) as Hrun.
  cbv zeta in Hrun.
  assert (Hjoin : join nl (front ++ [join " " cmd]) = join nl front +++ nl +++ join " " cmd)
    by (apply join_snoc; exact Hfront).
  assert (Hlast : has_char (ascii_of_nat 10) (join " " cmd) = false ->
                  last_line (join nl (front ++ [join " " cmd])) = join " " cmd).
  { intros Hline. rewrite Hjoin. now apply last_line_after_feed. }
  destruct (w_write w _ _) as [e|]; [|destruct (w_spawn w _ _ _) as [e|p]];
    do 2 eexists; (split; [exact Hm|]; split; [exact Hb|]; split; [exact Hrun|];
                   split; [exact Hjoin | exact Hlast]).
Qed.

Lemma gmx_writes_script_witness :
  let cmd := gmx_cmd "mdrun" ["-v"] [("-s", "npt.tpr")] [("-deffnm", "npt")] in
  exists schdlr front rest outcome,
    merge_scheduler (default_schdlr "sim" "npt") (Some [("nodes", VInt 2)]) = inr schdlr
    /\ batch_script schdlr cmd = inr (front ++ [join " " cmd])
    /\ run (gmx "mdrun" ["-v"] [("-s", "npt.tpr")] [("-deffnm", "npt")]
              (Some "sim") (Some "/scratch/run") (Some "npt")
              (Some [("nodes", VInt 2)]) true None) (steady_world 0 "" "" (Arr2 []))
       = (WriteFile ("/scratch/run" +++ "/" +++ "npt" +++ ".slurm")
            (join nl (front ++ [join " " cmd])) :: rest, outcome)
    /\ join nl (front ++ [join " " cmd]) = join nl front +++ nl +++ join " " cmd
    /\ last_line (join nl (front ++ [join " " cmd])) = join " " cmd.
Proof.
  cbv zeta.
  destruct (gmx_writes_script ["-v"] [("-s", "npt.tpr")] [("-deffnm", "npt")]
              "sim" "/scratch/run" "npt" (Some [("nodes", VInt 2)]) true None
              (steady_world 0 "" "" (Arr2 [])))
    as (schdlr & front & rest & outcome & Hm & Hb & Hrun & Hjoin & Hlast).
  - reflexivity.
  - exists schdlr, front, rest, outcome.
    split; [exact Hm|]. split; [exact Hb|]. split; [exact Hrun|]. split; [exact Hjoin|].
    apply Hlast. reflexivity.
Defined.

Example gmx_mdrun_script_text :
  run (gmx "mdrun" ["-v"] [("-s", "npt.tpr")] [("-deffnm", "npt")]
         (Some "sim") (Some "/scratch/run") (Some "npt")
         (Some [("nodes", VNone)]) true None) (steady_world 0 "" "" (Arr2 []))
  = ([ WriteFile "/scratch/run/npt.slurm"
         ("#!/bin/bash" +++ nl +++ nl
          +++ "#SBATCH --job-name=simnpt" +++ nl
          +++ "#SBATCH --output=npt.slurm.log" +++ nl
          +++ "#SBATCH --partition=andromeda" +++ nl
          +++ nl
          +++ "#SBATCH --ntasks=10" +++ nl
          +++ "#SBATCH --ntasks-per-node=1" +++ nl
          +++ nl
          +++ "# Required modules" +++ nl
          +++ "module load mpi/mpich-x86_64" +++ nl
          +++ "module load gromacs/2023.5-plumed" +++ nl
          +++ nl
          +++ "# Run the molecular dynamics simulation" +++ nl
          +++ "mpirun gmx_mpi mdrun -v -s npt.tpr -deffnm npt");
       SubprocessRun ["sbatch"; "--wait"; "npt.slurm"] (Some "/scratch/run") None false ],
     inr tt).
Proof. reflexivity. Qed.

(** ** gmx: failures *)

(** C8 (as stated) fails: a tool that ends with exit status 1 is no failure
    to [gmx], which prints what the tool wrote and returns. *)
Lemma gmx_ignores_exit_status :
  let w := steady_world 1 "" "Fatal error: no such file" (Arr2 []) in
  let cmd := ["gmx"; "grompp"; "-f"; "npt.mdp"] in
  w_spawn w cmd None None
  = inr {| exit_status := 1; out_text := ""; err_text := "Fatal error: no such file" |}
  /\ run (gmx "grompp" [] [("-f", "npt.mdp")] [] None None None None false None) w
     = ([SubprocessRun cmd None None true; Print ""; Print "Fatal error: no such file"],
        inr tt).
Proof. split; reflexivity. Qed.

(** C8 (as amended): a failure of the operating system (a process that
    cannot be started, a script that cannot be written) reaches the caller
    as the very exception raised, and [gmx] makes no further call; a process
    that ends, whatever its exit status, is no failure: [gmx] returns. *)
Theorem gmx_os_failures_propagate (arguments : list string)
    (inputs outputs : PyDict.t string) (scheduler : option config) (wait : bool)
    (stdin : option string) (w : world) :
  (forall executable name path ensemble,
     executable <> "mdrun" ->
     let cmd := gmx_cmd executable arguments inputs outputs in
     let r := run (gmx executable arguments inputs outputs name path ensemble
                     scheduler wait stdin) w in
     (forall e, w_spawn w cmd path stdin = inl e ->
                r = ([SubprocessRun cmd path stdin true], inl e))
     /\ (forall p, w_spawn w cmd path stdin = inr p ->
                   r = ([SubprocessRun cmd path stdin true;
                         Print (out_text p); Print (err_text p)], inr tt)))
  /\ (forall name path ensemble,
        modules_is_list scheduler = true ->
        let r := run (gmx "mdrun" arguments inputs outputs (Some name) (Some path)
                        (Some ensemble) scheduler wait stdin) w in
        let script := path +++ "/" +++ ensemble +++ ".slurm" in
        let submitted := SubprocessRun (sbatch_cmd ensemble wait) (Some path) None false in
        exists text,
          (forall e, w_write w script text = Some e ->
                     r = ([WriteFile script text], inl e))
          /\ (w_write w script text = None ->
              (forall e, w_spawn w (sbatch_cmd ensemble wait) (Some path) None = inl e ->
                         r = ([WriteFile script text; submitted], inl e))
              /\ (forall p, w_spawn w (sbatch_cmd ensemble wait) (Some path) None = inr p ->
                            r = ([WriteFile script text; submitted], inr tt)))).
Proof.
  split.
  - intros executable name path ensemble Hne. cbv zeta.
    rewrite (gmx_direct_run arguments inputs outputs name path ensemble scheduler wait
               stdin w Hne).
    cbv zeta. split; intros x Hx; rewrite Hx; reflexivity.
  - intros name path ensemble Hok. cbv zeta.
    set (cmd := gmx_cmd "mdrun" arguments inputs outputs).
    destruct (batch_script_of_merge name ensemble scheduler cmd Hok)
      as (schdlr & v1 & v2 & v3 & v4 & v5 & v6 & ms & Hm & H1 & H2 & H3 & H4 & H5 & H6 & H7).
    pose proof (batch_script_lines schdlr cmd H1 H2 H3 H4 H5 H6 H7) as Hb.
    pose proof (gmx_scheduled_run arguments inputs outputs name path ensemble scheduler wait
                  stdin w Hm Hb) as Hrun.
    cbv zeta in Hrun. eexists. rewrite Hrun. split.
    + intros e He. rewrite He. reflexivity.
    + intros Hw. rewrite Hw. split; intros x Hx; rewrite Hx; reflexivity.
Qed.

Lemma gmx_os_failures_propagate_witness :
  run (gmx "grompp" ["-maxwarn"; "1"] [("-f", "npt.mdp")] [("-o", "npt.tpr")]
         None (Some "/scratch/run") None None false None) broken_world
  = ([SubprocessRun ["gmx"; "grompp"; "-maxwarn"; "1"; "-f"; "npt.mdp"; "-o"; "npt.tpr"]
        (Some "/scratch/run") None true],
     inl (OSError "No such file or directory")).
Proof.
  refine (proj1 (proj1 (gmx_os_failures_propagate ["-maxwarn"; "1"] [("-f", "npt.mdp")]
                          [("-o", "npt.tpr")] None false None broken_world)
                   "grompp" None (Some "/scratch/run") None _) _ _).
  - discriminate.
  - reflexivity.
Defined.

Example gmx_script_not_written :
  run (gmx "mdrun" [] [] [] (Some "sim") (Some "/readonly") (Some "npt") None false None)
      broken_world
  = ([WriteFile "/readonly/npt.slurm"
        (join nl [ "#!/bin/bash"; ""; "#SBATCH --job-name=simnpt";
                   "#SBATCH --output=npt.slurm.log"; "#SBATCH --partition=andromeda";
                   "#SBATCH --nodes=1-12"; "#SBATCH --ntasks=10";
                   "#SBATCH --ntasks-per-node=1"; ""; "# Required modules";
                   "module load mpi/mpich-x86_64"; "module load gromacs/2023.5-plumed";
                   ""; "# Run the molecular dynamics simulation";
                   "mpirun gmx_mpi mdrun" ])],
     inl (OSError "Permission denied")).
Proof. reflexivity. Qed.

(** ** The moving average *)

Section MovingAverage.

Lemma rev_constant (c : float) (n : nat) : rev (repeat c n) = repeat c n.
Proof.
  induction n as [|n IH]; simpl; [reflexivity|].
  rewrite IH. symmetry. apply repeat_cons.
Qed.



(** The window of [np.ones(w) / w]. *)
Lemma moving_average_window (w : Z) :
  (1 <= w)%Z ->
  np_ones w = inr (repeat (float_of_Z 1) (Z.to_nat w))
  /\ np_divide (repeat (float_of_Z 1) (Z.to_nat w)) w = repeat (weight w) (Z.to_nat w).
Proof.
  intros Hw. split.
  - unfold np_ones. destruct (Z.ltb_spec w 0); [lia | reflexivity].
  - unfold np_divide. rewrite map_repeat. reflexivity.
Qed.

(** What [moving_average] computes on a table at least as long as the
    window. *)
Lemma moving_average_value (rows : list (float * float)) (w : Z) :
  (1 <= w)%Z -> (w <= Z.of_nat (List.length rows))%Z ->
  moving_average (Arr2 rows) w
  = inr (map (fun k => dot (window_at (map snd rows) w k) (repeat (weight w) (Z.to_nat w)))
             (seq 0 (List.length rows - Z.to_nat w + 1))).
Proof.
  intros Hw Hn. unfold moving_average.
  destruct (moving_average_window Hw) as [Hones Hdiv].
  rewrite Hones. simpl. rewrite Hdiv.
  unfold np_convolve_valid. rewrite length_map, repeat_length.
  destruct (Nat.ltb_spec (List.length rows) (Z.to_nat w)) as [Hlt|_]; [lia|].
  simpl fst. simpl snd. rewrite length_map, repeat_length.
  destruct (Nat.eqb_spec (List.length rows) 0) as [H0|_]; [lia|].
  destruct (Nat.eqb_spec (Z.to_nat w) 0) as [H0|_]; [lia|].
  unfold correlate_valid, window_at.
  rewrite rev_constant, length_map, repeat_length. reflexivity.
Qed.
End MovingAverage.

(** ** xvg_line *)

Lemma moving_average_length (rows : list (float * float)) (w : Z) (avg : list float) :
  (1 <= w)%Z -> (w <= Z.of_nat (List.length rows))%Z ->
  moving_average (Arr2 rows) w = inr avg ->
  List.length avg = (List.length rows - Z.to_nat w + 1)%nat.
Proof.
  intros Hw Hn Havg. rewrite (moving_average_value rows Hw Hn) in Havg.
  injection Havg as <-. now rewrite length_map, length_seq.
Qed.

Lemma slice_length (rows : list (float * float)) (w : Z) :
  (1 <= w)%Z -> (w <= Z.of_nat (List.length rows))%Z ->
  List.length (map fst (py_slice_from rows (w - 1)))
  = (List.length rows - Z.to_nat w + 1)%nat.
Proof.
  intros Hw Hn. unfold py_slice_from.
  destruct (Z.ltb_spec (w - 1) 0); [lia|].
  rewrite length_map, length_skipn. lia.
Qed.

(** [xvg_line] on a table that loads, with a window that fits: the calls it
    makes, after those made before it, and how it ends. *)
Lemma xvg_line_run (title subtitle path ensemble xlabel ylabel label sufix : string)
    (movavg : Z) (rows : list (float * float)) (w : world) (t : list event) :
  w_loadtxt w (path +++ "/" +++ ensemble +++ sufix +++ ".xvg") = inr (Arr2 rows) ->
  movavg = 0%Z \/ (1 <= movavg <= Z.of_nat (List.length rows))%Z ->
  let calls := xvg_line_calls title subtitle path ensemble xlabel ylabel label sufix
                 movavg rows in
  xvg_line title subtitle path ensemble xlabel ylabel label sufix movavg w t
  = match w_savefig w (path +++ "/" +++ ensemble +++ sufix +++ ".png") with
    | None => (t ++ calls ++ [CloseFigure], inr tt)
    | Some e => (t ++ calls, inl e)
    end.
Proof.
  intros Hload Hmov. cbv zeta.
  unfold xvg_line, xvg_line_calls, overlay_calls, overlay_line, np_loadtxt, plt_savefig,
    plt_call, scientific_if_dollar, ax_plot.
  io_unfold. simpl in Hload. rewrite Hload. simpl.
  rewrite !length_map, Nat.eqb_refl. simpl.
  destruct (Z.eqb_spec movavg 0) as [E0|E0]; simpl.
  - destruct (has_char "$" ylabel); simpl; destruct (w_savefig w _); simpl;
      rewrite <- !app_assoc; reflexivity.
  - destruct Hmov as [Hz|[Hw Hn]]; [contradiction|].
    destruct (moving_average (Arr2 rows) movavg) as [e|avg] eqn:Havg.
    + rewrite (moving_average_value rows Hw Hn) in Havg. discriminate.
    + pose proof (moving_average_length rows Hw Hn Havg) as Hlen.
      pose proof (slice_length rows Hw Hn) as Hsl. rewrite length_map in Hsl.
      rewrite Hsl, Hlen, Nat.eqb_refl.
      destruct (has_char "$" ylabel); simpl; destruct (w_savefig w _); simpl;
        rewrite <- !app_assoc; reflexivity.
Qed.




Lemma hundred_rows_length : List.length hundred_rows = 100%nat.
Proof. reflexivity. Qed.



(** ** Loops *)

Lemma py_range_cons (start stop : Z) :
  (start < stop)%Z -> py_range start stop = start :: py_range (start + 1) stop.
Proof.
  intros Hlt. unfold py_range.
  replace (Z.to_nat (stop - start)) with (S (Z.to_nat (stop - (start + 1)))) by lia.
  rewrite <- cons_seq, <- seq_shift, map_cons, map_map. f_equal.
  - simpl. lia.
  - apply map_ext. intros k. lia.
Qed.

Lemma py_range_length (start stop : Z) :
  List.length (py_range start stop) = Z.to_nat (stop - start).
Proof. unfold py_range. now rewrite length_map, length_seq. Qed.

Lemma py_range_bounds (start stop i : Z) :
  In i (py_range start stop) -> (start <= i < stop)%Z.
Proof.
  unfold py_range. rewrite in_map_iff. intros [k [<- Hk]].
  apply in_seq in Hk. lia.
Qed.

(** ** xvg_multi_density *)

Lemma viridis_colors_run (n : Z) (w : world) (t : list event) :
  (0 <= n)%Z -> exists colors, viridis_colors n w t = (t, inr colors).
Proof.
  intros Hn. unfold viridis_colors, np_linspace01. io_unfold.
  destruct (Z.ltb_spec n 0); [lia|]. eexists. reflexivity.
Qed.

(** C9 (what the code does): with at least one replica, [xvg_multi_density]
    never returns and never reaches a kernel-density call; once the first
    data file is loaded it stops on the name [sns], which no import binds. *)
Theorem xvg_multi_density_name_error (title path ensemble xlabel ylabel label_prefix : string)
    (replicas : Z) (sufix : string) (bandwidth : option Q) (w : world) :
  (1 <= replicas)%Z ->
  let r := run (xvg_multi_density title path ensemble xlabel ylabel label_prefix replicas
                  sufix bandwidth) w in
  let first_file := path +++ "/replica" +++ "01" +++ sufix +++ ".xvg" in
  (exists e, snd r = inl e)
  /\ kde_calls (fst r) = 0%nat
  /\ (forall data, w_loadtxt w first_file = inr data ->
        r = ([NewFigure; Loadtxt first_file], inl (NameError "name 'sns' is not defined"))).
Proof.
  intros Hn. cbv zeta. unfold run, xvg_multi_density.
  rewrite (@py_range_cons 0 replicas) by lia.
  unfold plt_call at 1. io_unfold.
  destruct (@viridis_colors_run replicas w [NewFigure]) as [colors Hcol]; [lia|].
  rewrite Hcol. unfold xvg_multi_density_replica, np_loadtxt. io_unfold.
  destruct (w_loadtxt w _) as [e|data].
  - split; [eexists; reflexivity|]. split; [reflexivity|]. intros data H; discriminate H.
  - split; [eexists; reflexivity|]. split; [reflexivity|]. intros data' _; reflexivity.
Qed.

Lemma xvg_multi_density_name_error_witness :
  run (xvg_multi_density "Density" "/data" "temp" "T (K)" "density" "Replica" 3 "_eq" None)
      (steady_world 0 "" "" (Arr2 hundred_rows))
  = ([NewFigure; Loadtxt "/data/replica01_eq.xvg"],
     inl (NameError "name 'sns' is not defined")).
Proof.
  refine (proj2 (proj2 (@xvg_multi_density_name_error "Density" "/data" "temp" "T (K)"
                          "density" "Replica" 3 "_eq" None
                          (steady_world 0 "" "" (Arr2 hundred_rows)) _))
            (Arr2 hundred_rows) _).
  - lia.
  - reflexivity.
Defined.

(** Without a replica the loop is not entered and the name is never read. *)
Example xvg_multi_density_no_replica :
  run (xvg_multi_density "Density" "/data" "temp" "T (K)" "density" "Replica" 0 "" None)
      (steady_world 0 "" "" (Arr2 []))
  = ([NewFigure; Suptitle "Density"; Xlabel "T (K)"; Ylabel "density"; Legend;
      Savefig "/data/temp_density.png"; CloseFigure], inr tt).
Proof. reflexivity. Qed.

(** ** xvg: one plot for each replica directory *)

Lemma bind_run {A B : Type} (m : IO A) (k : A -> IO B) (w : world) (t : list event) :
  (x <- m ;; k x) w t
  = match m w t with
    | (t', inl e) => (t', inl e)
    | (t', inr a) => k a w t'
    end.
Proof. reflexivity. Qed.

Lemma append_nil_r (s : string) : s +++ "" = s.
Proof. induction s as [|c s IH]; simpl; [reflexivity | now rewrite IH]. Qed.

Lemma ret_run {A : Type} (a : A) (w : world) (t : list event) : ret a w t = (t, inr a).
Proof. reflexivity. Qed.

Lemma time_time_run (w : world) (t : list event) :
  time_time w t = (t, inr (w_clock w (List.length t))).
Proof. reflexivity. Qed.

(** The end of row appended after a cell is part of what follows the table
    so far. *)
Lemma end_of_row (html cell : string) (b : bool) :
  (if b then (html +++ cell) +++ "</tr>" else html +++ cell)
  = html +++ cell +++ (if b then "</tr>" else "").
Proof. destruct b; rewrite ?append_assoc, ?append_nil_r; reflexivity. Qed.

(** The cell of replica [i] is the image cell [xvg] appends for its figure,
    then the end of row after every third replica. *)
Lemma replica_cell_img (path ensemble sufix : string) (i : Z) (stamp : string) :
  img_cell (replica_png path ensemble sufix i) stamp
  +++ (if (i mod 3 =? 0)%Z then "</tr>" else "")
  = replica_cell path ensemble sufix i stamp.
Proof. unfold img_cell, replica_cell. rewrite !append_assoc. reflexivity. Qed.

Lemma xvg_replica_run (title path ensemble xlabel ylabel label : string)
    (measure units : pyval) (values : option (list Q)) (sufix : string) (movavg : Z)
    (i : Z) (html subtitle : string) (rows : list (float * float)) (w : world) (t : list event) :
  replica_subtitle ensemble measure units values i = inr subtitle ->
  w_loadtxt w (replica_xvg path ensemble sufix i) = inr (Arr2 rows) ->
  w_savefig w (replica_png path ensemble sufix i) = None ->
  movavg = 0%Z \/ (1 <= movavg <= Z.of_nat (List.length rows))%Z ->
  let t' := t ++ xvg_line_calls title subtitle (replica_dir path i) ensemble xlabel ylabel
                   label sufix movavg rows ++ [CloseFigure] in
  xvg_replica title path ensemble xlabel ylabel label measure units values sufix movavg
    i html w t
  = (t', inr (html +++ replica_cell path ensemble sufix i (w_clock w (List.length t')))).
Proof.
  intros Hsub Hload Hsave Hmov. cbv zeta. unfold xvg_replica.
  rewrite bind_run. unfold lift at 1. rewrite Hsub.
  rewrite bind_run.
  rewrite (@xvg_line_run title subtitle (path +++ "/replica" +++ fmt_02d i) ensemble xlabel
             ylabel label sufix movavg rows w t Hload Hmov).
  cbv zeta. unfold replica_png, replica_dir in Hsave. rewrite Hsave.
  rewrite bind_run, time_time_run, ret_run, end_of_row.
  rewrite <- replica_cell_img. reflexivity.
Qed.

Lemma files_read_app (a b : list event) : files_read (a ++ b) = files_read a ++ files_read b.
Proof. apply flat_map_app. Qed.

Lemma figures_saved_app (a b : list event) :
  figures_saved (a ++ b) = figures_saved a ++ figures_saved b.
Proof. apply flat_map_app. Qed.

Lemma overlay_calls_quiet (rows : list (float * float)) (movavg : Z) :
  files_read (overlay_calls rows movavg) = []
  /\ figures_saved (overlay_calls rows movavg) = [].
Proof.
  unfold overlay_calls.
  destruct (movavg =? 0)%Z; [split; reflexivity|].
  destruct (moving_average (Arr2 rows) movavg); split; reflexivity.
Qed.

(** One [xvg_line] reads one data file and saves one figure. *)
Lemma xvg_line_calls_files (title subtitle path ensemble xlabel ylabel label sufix : string)
    (movavg : Z) (rows : list (float * float)) :
  let calls := xvg_line_calls title subtitle path ensemble xlabel ylabel label sufix
                 movavg rows ++ [CloseFigure] in
  files_read calls = [path +++ "/" +++ ensemble +++ sufix +++ ".xvg"]
  /\ figures_saved calls = [path +++ "/" +++ ensemble +++ sufix +++ ".png"].
Proof.
  cbv zeta. unfold xvg_line_calls.
  destruct (overlay_calls_quiet rows movavg) as [Hr Hs].
  rewrite !files_read_app, !figures_saved_app, Hr, Hs.
  destruct (has_char "$" ylabel); split; reflexivity.
Qed.

Lemma replica_subtitle_defined (ensemble : string) (measure units : pyval)
    (values : option (list Q)) (i : Z) :
  ensemble = "min"
  \/ (exists vs, values = Some vs /\ (1 <= i <= Z.of_nat (List.length vs))%Z) ->
  exists subtitle, replica_subtitle ensemble measure units values i = inr subtitle.
Proof.
  intros [->|[vs [-> Hi]]]; unfold replica_subtitle.
  - eexists. reflexivity.
  - destruct (String.eqb ensemble "min"); [eexists; reflexivity|].
    unfold subscript_values, py_index.
    destruct (Z.ltb_spec (i - 1) 0) as [Hneg|_]; [lia|].
    destruct (Z.ltb_spec (i - 1) 0) as [Hneg|_]; [lia|].
    destruct (nth_error vs (Z.to_nat (i - 1))) as [v|] eqn:Hv.
    + eexists. reflexivity.
    + apply nth_error_None in Hv. lia.
Qed.

Lemma for_fold_cons {A S : Type} (x : A) (rest : list A) (body : A -> S -> IO S) (s : S)
    (w : world) (t : list event) :
  for_fold (x :: rest) body s w t
  = match body x s w t with
    | (t', inl e) => (t', inl e)
    | (t', inr s') => for_fold rest body s' w t'
    end.
Proof. reflexivity. Qed.

Section SeparatePlots.
Variables (title path ensemble xlabel ylabel label : string).
Variables (measure units : pyval) (values : option (list Q)).
Variables (sufix : string) (movavg : Z).
Variable w : world.

(** The loop of lines 284-295 over the replica directories [indices]. *)
Lemma xvg_replicas_run (indices : list Z) :
  (forall i, In i indices ->
     replica_ready w path ensemble sufix movavg i
     /\ exists subtitle, replica_subtitle ensemble measure units values i = inr subtitle) ->
  forall (t : list event) (html : string),
  exists t' stamps,
    for_fold indices
      (xvg_replica title path ensemble xlabel ylabel label measure units values sufix movavg)
      html w t
    = (t', inr (html +++ gallery path ensemble sufix indices stamps))
    /\ List.length stamps = List.length indices
    /\ files_read t' = files_read t ++ map (replica_xvg path ensemble sufix) indices
    /\ figures_saved t' = figures_saved t ++ map (replica_png path ensemble sufix) indices
    /\ (indices = [] -> t' = t).
Proof.
  induction indices as [|i rest IH]; intros Hready t html.
  - exists t, []. simpl. rewrite append_nil_r, !app_nil_r. repeat split; reflexivity.
  - destruct (Hready i (or_introl eq_refl))
      as [[[rows [Hload Hmov]] Hsave] [subtitle Hi]].
    rewrite for_fold_cons.
    rewrite (@xvg_replica_run title path ensemble xlabel ylabel label measure units values
               sufix movavg i html subtitle rows w t Hi Hload Hsave Hmov).
    cbv zeta.
    set (calls := xvg_line_calls title subtitle (replica_dir path i) ensemble xlabel ylabel
                    label sufix movavg rows ++ [CloseFigure]).
    set (stamp := w_clock w (List.length (t ++ calls))).
    destruct (IH (fun j H => Hready j (or_intror H)) (t ++ calls)
                (html +++ replica_cell path ensemble sufix i stamp))
      as (t' & stamps & Hrun & Hlen & Hread & Hsaved & _).
    exists t', (stamp :: stamps). rewrite Hrun.
    destruct (xvg_line_calls_files title subtitle (replica_dir path i) ensemble xlabel
                ylabel label sufix movavg rows) as [Hr Hs].
    fold calls in Hr, Hs.
    split; [simpl; now rewrite append_assoc|].
    split; [simpl; now rewrite Hlen|].
    split; [rewrite Hread, files_read_app, Hr, <- app_assoc; reflexivity|].
    split; [rewrite Hsaved, figures_saved_app, Hs, <- app_assoc; reflexivity|].
    discriminate.
Qed.
End SeparatePlots.

Lemma py_range_In (start stop i : Z) :
  In i (py_range start stop) <-> (start <= i < stop)%Z.
Proof.
  split; [apply py_range_bounds|].
  intros Hi. unfold py_range. apply in_map_iff.
  exists (Z.to_nat (i - start)). split; [lia|]. apply in_seq. lia.
Qed.

Lemma display_html_run (html : string) (w : world) (t : list event) :
  display_html html w t = (t ++ [Display html], inr tt).
Proof. reflexivity. Qed.

(** C10 (as stated) fails: with the default [values] (none) and an ensemble
    other than [min], three replicas whose data would all load give no plot
    at all: the first subtitle raises [TypeError], no file is read, no
    figure is saved and nothing is displayed. *)
Lemma xvg_default_values_no_plot :
  let r := run (xvg "Temperature" "/data" "temp" "Time (ps)" "T (K)" "Run" (VStr "T")
                  (VStr "K") None (Some 3%Z) "_eq" 10 false "values")
               (steady_world 0 "" "" (Arr2 hundred_rows)) in
  snd r = inl (TypeError "'NoneType' object is not subscriptable")
  /\ fst r = []
  /\ files_read (fst r) = []
  /\ figures_saved (fst r) = []
  /\ Z.of_nat (List.length (figures_saved (fst r))) <> (3 - 1)%Z.
Proof.
  cbv zeta.
  assert (E : run (xvg "Temperature" "/data" "temp" "Time (ps)" "T (K)" "Run" (VStr "T")
                     (VStr "K") None (Some 3%Z) "_eq" 10 false "values")
                  (steady_world 0 "" "" (Arr2 hundred_rows))
              = ([], inl (TypeError "'NoneType' object is not subscriptable")))
    by reflexivity.
  rewrite E. repeat split; discriminate.
Qed.

(** C10 (as amended): with [replicas] given and [multi_lines] false, [xvg]
    loops over [range(1, replicas)]: when the ensemble is [min] or [values]
    holds at least [replicas - 1] numbers, and where the data file of each
    of these replica directories loads as a table the window fits and its
    figure can be saved, [xvg] reads the data files of replica01 to
    replica(replicas-1), in that order, saves one figure for each, and
    displays a table of as many image cells, each the image of the saved
    figure of its replica with a time stamp, an end of row after every
    third: [replicas - 1] plots and gallery images in all, and none when
    [replicas] is 1. *)
Theorem xvg_separate_plots (title path ensemble xlabel ylabel label : string)
    (measure units : pyval) (values : option (list Q)) (replicas : Z)
    (sufix : string) (movavg : Z) (plot_type : string) (w : world) :
  (1 <= replicas)%Z ->
  (forall i, (1 <= i < replicas)%Z -> replica_ready w path ensemble sufix movavg i) ->
  ensemble = "min"
  \/ (exists vs, values = Some vs /\ (replicas - 1 <= Z.of_nat (List.length vs))%Z) ->
  let indices := py_range 1 replicas in
  exists trace stamps,
    run (xvg title path ensemble xlabel ylabel label measure units values (Some replicas)
           sufix movavg false plot_type) w
    = (trace ++ [Display ("<table>" +++ gallery path ensemble sufix indices stamps
                          +++ "</table>")],
       inr tt)
    /\ files_read trace = map (replica_xvg path ensemble sufix) indices
    /\ figures_saved trace = map (replica_png path ensemble sufix) indices
    /\ List.length stamps = List.length indices
    /\ Z.of_nat (List.length indices) = (replicas - 1)%Z
    /\ (forall i, In i indices <-> (1 <= i <= replicas - 1)%Z)
    /\ (replicas = 1%Z -> trace = []).
Proof.
  intros Hn Hready Hvalues. cbv zeta.
  assert (Hall : forall i, In i (py_range 1 replicas) ->
                   replica_ready w path ensemble sufix movavg i
                   /\ exists subtitle,
                        replica_subtitle ensemble measure units values i = inr subtitle).
  { intros i Hi. apply py_range_bounds in Hi. split; [apply Hready; lia|].
    apply replica_subtitle_defined.
    destruct Hvalues as [Hmin|[vs [Hvs Hlen]]]; [now left|].
    right. exists vs. split; [exact Hvs | lia]. }
  destruct (@xvg_replicas_run title path ensemble xlabel ylabel label measure units values
              sufix movavg w (py_range 1 replicas) Hall [] "<table>")
    as (trace & stamps & Hrun & Hlen & Hread & Hsaved & Hnil).
  exists trace, stamps.
  split.
  - unfold run, xvg. cbv zeta. rewrite bind_run. cbv beta iota. rewrite Hrun.
    rewrite display_html_run, append_assoc. reflexivity.
  - split; [exact Hread|]. split; [exact Hsaved|]. split; [exact Hlen|].
    split; [rewrite py_range_length; lia|].
    split; [intros i; rewrite py_range_In; lia|].
    intros ->. apply Hnil. reflexivity.
Qed.

Lemma xvg_separate_plots_witness :
  exists trace stamps,
    run (xvg "Temperature" "/data" "temp" "Time (ps)" "T (K)" "Run" (VStr "T") (VStr "K")
           (Some [300; 310]%Q) (Some 3%Z) "_eq" 10 false "values")
        (steady_world 0 "" "" (Arr2 hundred_rows))
    = (trace ++ [Display ("<table>" +++ gallery "/data" "temp" "_eq" (py_range 1 3) stamps
                          +++ "</table>")],
       inr tt)
    /\ files_read trace = ["/data/replica01/temp_eq.xvg"; "/data/replica02/temp_eq.xvg"]
    /\ figures_saved trace = ["/data/replica01/temp_eq.png"; "/data/replica02/temp_eq.png"].
Proof.
  destruct (@xvg_separate_plots "Temperature" "/data" "temp" "Time (ps)" "T (K)" "Run"
              (VStr "T") (VStr "K") (Some [300; 310]%Q) 3 "_eq" 10 "values"
              (steady_world 0 "" "" (Arr2 hundred_rows)))
    as (trace & stamps & Hrun & Hread & Hsaved & _).
  - lia.
  - intros i _. split; [|reflexivity].
    exists hundred_rows. split; [reflexivity|]. right. rewrite hundred_rows_length. lia.
  - right. exists [300; 310]%Q. split; [reflexivity | simpl; lia].
  - exists trace, stamps. split; [exact Hrun|]. split; [exact Hread | exact Hsaved].
Defined.

(** Two plots of three replicas: the table displayed, the time stamps being
    the moments the two figures were closed (the clock of the steady world
    reads the number of calls made so far). *)
Example xvg_two_plots_table :
  let r := run (xvg "Temperature" "/data" "temp" "Time (ps)" "T (K)" "Run" (VStr "T")
                  (VStr "K") (Some [300; 310]%Q) (Some 3%Z) "_eq" 10 false "values")
               (steady_world 0 "" "" (Arr2 hundred_rows)) in
  snd r = inr tt
  /\ last (fst r) NewFigure
     = Display ("<table>"
                +++ "<td><img src=" +++ dquote +++ "/data/replica01/temp_eq.png?11.0"
                +++ dquote +++ " style=" +++ dquote +++ "width:100%" +++ dquote +++ "></td>"
                +++ "<td><img src=" +++ dquote +++ "/data/replica02/temp_eq.png?22.0"
                +++ dquote +++ " style=" +++ dquote +++ "width:100%" +++ dquote +++ "></td>"
                +++ "</table>").
Proof.
  cbv zeta. split; vm_compute; reflexivity.
Qed.

(** A single replica: no data file is read and the table is empty. *)
Example xvg_one_replica :
  run (xvg "Temperature" "/data" "temp" "Time (ps)" "T (K)" "Run" VNone VNone None
         (Some 1%Z) "" 0 false "values") (steady_world 0 "" "" (Arr2 hundred_rows))
  = ([Display "<table></table>"], inr tt).
Proof. reflexivity. Qed.

Example xvg_three_replicas :
  files_read (fst (run (xvg "Energy" "/data" "min" "Step" "E" "Run" VNone VNone None
                          (Some 3%Z) "" 0 false "values")
                       (steady_world 0 "" "" (Arr2 hundred_rows))))
  = ["/data/replica01/min.xvg"; "/data/replica02/min.xvg"].
Proof. reflexivity. Qed.

(** * Further properties of gmx *)

(** X1: in direct mode [gmx] starts exactly one process, the command line
    itself, and writes no file; the name, the ensemble, the scheduler
    mapping and the wait flag play no part, missing or not. *)
Theorem gmx_direct_ignores_scheduling (executable : string) (arguments : list string)
    (inputs outputs : PyDict.t string) (path stdin : option string) (w : world)
    (name name' ensemble ensemble' : option string) (scheduler scheduler' : option config)
    (wait wait' : bool) :
  executable <> "mdrun" ->
  let r := run (gmx executable arguments inputs outputs name path ensemble scheduler wait
                  stdin) w in
  r = run (gmx executable arguments inputs outputs name' path ensemble' scheduler' wait'
             stdin) w
  /\ files_written (fst r) = []
  /\ processes_started (fst r) = [gmx_cmd executable arguments inputs outputs].
Proof.
  intros Hne. cbv zeta.
  rewrite !(gmx_direct_run arguments inputs outputs _ path _ _ _ stdin w Hne).
  cbv zeta. destruct (w_spawn w _ path stdin); repeat split.
Qed.

Lemma gmx_direct_ignores_scheduling_witness :
  let r := run (gmx "grompp" [] [("-f", "npt.mdp")] [] None None None None false None)
               broken_world in
  r = run (gmx "grompp" [] [("-f", "npt.mdp")] [] (Some "sim") None (Some "npt")
             (Some [("modules", VNone)]) true None) broken_world
  /\ files_written (fst r) = []
  /\ processes_started (fst r) = [gmx_cmd "grompp" [] [("-f", "npt.mdp")] []].
Proof.
  apply gmx_direct_ignores_scheduling. discriminate.
Defined.

(** The value of [modules] when the override replaces it by something that
    is not a list. *)
Lemma merged_modules_not_list (name ensemble : string) (scheduler : option config)
    (merged : config) :
  modules_is_list scheduler = false ->
  merge_scheduler (default_schdlr name ensemble) scheduler = inr merged ->
  exists v, PyDict.get merged "modules" = Some v /\ forall l, v <> VList l.
Proof.
  intros Hbad Hm.
  destruct (merge_scheduler_get (default_schdlr name ensemble) scheduler)
    as [merged' [Hrun Hget]].
  rewrite Hm in Hrun. injection Hrun as <-.
  rewrite Hget. destruct scheduler as [override|]; simpl in *; [|discriminate].
  destruct (PyDict.get override "modules") as [[| | |ms]|]; try discriminate;
    eexists; (split; [reflexivity | intros l; discriminate]).
Qed.

(** X2: when the override replaces [modules] by a value that is not a list,
    the scheduled mode raises [TypeError] while the script is assembled:
    nothing is written and nothing is submitted. *)
Theorem gmx_modules_not_a_list (arguments : list string) (inputs outputs : PyDict.t string)
    (name path ensemble : string) (scheduler : option config) (wait : bool)
    (stdin : option string) (w : world) :
  modules_is_list scheduler = false ->
  exists msg,
    run (gmx "mdrun" arguments inputs outputs (Some name) (Some path) (Some ensemble)
           scheduler wait stdin) w
    = ([], inl (TypeError msg)).
Proof.
  intros Hbad.
  destruct (merge_scheduler_get (default_schdlr name ensemble) scheduler) as [schdlr [Hm _]].
  destruct (merged_has_key _ _ "job_name" Hm eq_refl) as [v1 H1].
  destruct (merged_has_key _ _ "output" Hm eq_refl) as [v2 H2].
  destruct (merged_has_key _ _ "partition" Hm eq_refl) as [v3 H3].
  destruct (merged_has_key _ _ "nodes" Hm eq_refl) as [v4 H4].
  destruct (merged_has_key _ _ "ntasks" Hm eq_refl) as [v5 H5].
  destruct (merged_has_key _ _ "ntasks_per_node" Hm eq_refl) as [v6 H6].
  destruct (merged_modules_not_list _ _ _ Hbad Hm) as [v7 [H7 Hnot]].
  unfold run, gmx. simpl. rewrite Hm. unfold batch_script, subscript.
  rewrite H1, H2, H3, H4, H5, H6, H7. simpl.
  destruct v7 as [|s|z|l]; try (eexists; reflexivity).
  exfalso. apply (Hnot l). reflexivity.
Qed.

Lemma gmx_modules_not_a_list_witness :
  exists msg,
    run (gmx "mdrun" [] [] [] (Some "sim") (Some "/scratch") (Some "npt")
           (Some [("modules", VStr "module load gromacs")]) false None)
        (steady_world 0 "" "" (Arr2 []))
    = ([], inl (TypeError msg)).
Proof.
  apply gmx_modules_not_a_list. reflexivity.
Defined.

(** X3: the script always has thirteen lines besides the module lines,
    whatever values are [None]: the shebang comes first, the module lines of
    the configuration stand in their order from line 10 on, and the command
    line comes last. *)
Theorem batch_script_shape (name ensemble : string) (scheduler : option config)
    (cmd : list string) :
  modules_is_list scheduler = true ->
  exists schdlr modules lines,
    merge_scheduler (default_schdlr name ensemble) scheduler = inr schdlr
    /\ PyDict.get schdlr "modules" = Some (VList modules)
    /\ batch_script schdlr cmd = inr lines
    /\ List.length lines = (13 + List.length modules)%nat
    /\ nth_error lines 0 = Some "#!/bin/bash"
    /\ (forall k, (k < List.length modules)%nat ->
                  nth_error lines (10 + k) = nth_error modules k)
    /\ nth_error lines (12 + List.length modules) = Some (join " " cmd).
Proof.
  intros Hok.
  destruct (batch_script_of_merge name ensemble scheduler cmd Hok)
    as (schdlr & v1 & v2 & v3 & v4 & v5 & v6 & ms & Hm & H1 & H2 & H3 & H4 & H5 & H6 & H7).
  pose proof (batch_script_lines schdlr cmd H1 H2 H3 H4 H5 H6 H7) as Hb.
  match type of Hb with
  | _ = inr (?pre ++ ms ++ ?post) =>
      set (front := pre) in Hb; set (back := post) in Hb;
      assert (Hfront : List.length front = 10%nat) by reflexivity;
      assert (Hfirst : nth_error (front ++ ms ++ back) 0 = Some "#!/bin/bash")
        by reflexivity;
      assert (Hback : back = [ ""; "# Run the molecular dynamics simulation";
                               join " " cmd ]) by reflexivity
  end.
  clearbody front back. subst back.
  exists schdlr, ms. eexists.
  split; [exact Hm|]. split; [exact H7|]. split; [exact Hb|].
  split; [rewrite !length_app, Hfront; simpl; lia|].
  split; [exact Hfirst|].
  split.
  - intros k Hk.
    rewrite nth_error_app2 by lia.
    replace (10 + k - List.length front)%nat with k by lia.
    now rewrite nth_error_app1.
  - rewrite nth_error_app2 by lia.
    rewrite nth_error_app2 by lia.
    replace (12 + List.length ms - List.length front - List.length ms)%nat
      with 2%nat by lia.
    reflexivity.
Qed.

Lemma batch_script_shape_witness :
  exists schdlr modules lines,
    merge_scheduler (default_schdlr "sim" "npt")
      (Some [("modules", VList ["module load gromacs"]); ("nodes", VNone)]) = inr schdlr
    /\ PyDict.get schdlr "modules" = Some (VList modules)
    /\ batch_script schdlr ["mpirun"; "gmx_mpi"; "mdrun"] = inr lines
    /\ List.length lines = (13 + List.length modules)%nat
    /\ nth_error lines 0 = Some "#!/bin/bash"
    /\ (forall k, (k < List.length modules)%nat ->
                  nth_error lines (10 + k) = nth_error modules k)
    /\ nth_error lines (12 + List.length modules)
       = Some (join " " ["mpirun"; "gmx_mpi"; "mdrun"]).
Proof.
  apply batch_script_shape. reflexivity.
Defined.

(** The script reads the configuration under seven keys only. *)
Lemma batch_script_ext (c1 c2 : config) (cmd : list string) :
  (forall key, In key script_keys -> PyDict.get c1 key = PyDict.get c2 key) ->
  batch_script c1 cmd = batch_script c2 cmd.
Proof.
  intros H. unfold batch_script, subscript.
  rewrite (H "job_name"), (H "output"), (H "partition"), (H "nodes"), (H "ntasks"),
    (H "ntasks_per_node"), (H "modules") by (simpl; tauto).
  reflexivity.
Qed.

(** X4: of the caller's scheduler mapping only the seven keys that the
    script reads matter: two mappings that agree on them, whatever other
    keys they hold, give the same run of [gmx] in every world. *)
Theorem gmx_reads_seven_keys (executable : string) (arguments : list string)
    (inputs outputs : PyDict.t string) (name path ensemble : option string)
    (scheduler scheduler' : option config) (wait : bool) (stdin : option string)
    (w : world) :
  (forall key, In key script_keys ->
     override_get scheduler key = override_get scheduler' key) ->
  run (gmx executable arguments inputs outputs name path ensemble scheduler wait stdin) w
  = run (gmx executable arguments inputs outputs name path ensemble scheduler' wait stdin) w.
Proof.
  intros Hagree. unfold run, gmx.
  destruct (negb (String.eqb executable "mdrun")); [reflexivity|].
  destruct ensemble as [ensemble|]; [|reflexivity].
  destruct name as [name|]; [|reflexivity].
  destruct path as [path|]; [|reflexivity].
  destruct (merge_scheduler_get (default_schdlr name ensemble) scheduler)
    as [m1 [Hm1 Hg1]].
  destruct (merge_scheduler_get (default_schdlr name ensemble) scheduler')
    as [m2 [Hm2 Hg2]].
  rewrite !bind_run. unfold lift at 1 3. rewrite Hm1, Hm2.
  rewrite !bind_run. unfold lift at 1 2.
  rewrite (batch_script_ext m1 m2).
  - reflexivity.
  - intros key Hkey. rewrite Hg1, Hg2. specialize (Hagree key Hkey).
    destruct scheduler as [o1|], scheduler' as [o2|]; simpl in Hagree;
      first [ reflexivity
            | rewrite Hagree; reflexivity
            | rewrite <- Hagree; reflexivity ].
Qed.

Lemma gmx_reads_seven_keys_witness :
  run (gmx "mdrun" [] [] [] (Some "sim") (Some "/scratch") (Some "npt")
         (Some [("nodes", VInt 2); ("account", VStr "chem")]) false None)
      (steady_world 0 "" "" (Arr2 []))
  = run (gmx "mdrun" [] [] [] (Some "sim") (Some "/scratch") (Some "npt")
           (Some [("time", VStr "01:00:00"); ("nodes", VInt 2)]) false None)
        (steady_world 0 "" "" (Arr2 [])).
Proof.
  apply gmx_reads_seven_keys.
  intros key [<-|[<-|[<-|[<-|[<-|[<-|[<-|[]]]]]]]]; reflexivity.
Defined.

(** Joining with spaces forgets where a word that holds a space ends. *)
Lemma join_merges_words (pre post : list string) (a b : string) :
  join " " (pre ++ (a +++ " " +++ b) :: post) = join " " (pre ++ a :: b :: post).
Proof.
  unfold join. induction pre as [|y pre IH].
  - destruct post as [|p post]; simpl; [reflexivity|].
    now rewrite !append_assoc.
  - change (String.concat " " (y :: (pre ++ (a +++ " " +++ b) :: post))
            = String.concat " " (y :: (pre ++ a :: b :: post))).
    destruct pre as [|z pre].
    + change (y +++ " " +++ String.concat " " ([] ++ (a +++ " " +++ b) :: post)
              = y +++ " " +++ String.concat " " ([] ++ a :: b :: post)).
      now rewrite IH.
    + change (y +++ " " +++ String.concat " " ((z :: pre) ++ (a +++ " " +++ b) :: post)
              = y +++ " " +++ String.concat " " ((z :: pre) ++ a :: b :: post)).
      now rewrite IH.
Qed.

Lemma batch_script_cmd_text (schdlr : config) (cmd cmd' : list string) :
  join " " cmd = join " " cmd' -> batch_script schdlr cmd = batch_script schdlr cmd'.
Proof. intros H. unfold batch_script. rewrite H. reflexivity. Qed.

(** X5: the script holds the command as its words joined by spaces, with no
    quoting: in scheduled mode one argument [a b] and the two arguments [a]
    and [b] give the same script and the same run. *)
Theorem gmx_script_forgets_word_bounds (before after : list string) (a b : string)
    (inputs outputs : PyDict.t string) (name path ensemble : option string)
    (scheduler : option config) (wait : bool) (stdin : option string) (w : world) :
  run (gmx "mdrun" (before ++ (a +++ " " +++ b) :: after) inputs outputs name path ensemble
         scheduler wait stdin) w
  = run (gmx "mdrun" (before ++ a :: b :: after) inputs outputs name path ensemble
           scheduler wait stdin) w.
Proof.
  unfold run, gmx.
  change (negb (String.eqb "mdrun" "mdrun")) with false. cbv iota.
  destruct ensemble as [ensemble|]; [|reflexivity].
  destruct name as [name|]; [|reflexivity].
  destruct path as [path|]; [|reflexivity].
  rewrite !bind_run.
  destruct (lift (merge_scheduler (default_schdlr name ensemble) scheduler) w [])
    as [t [e|schdlr]]; [reflexivity|].
  rewrite !bind_run.
  rewrite (batch_script_cmd_text schdlr
             (gmx_cmd "mdrun" (before ++ (a +++ " " +++ b) :: after) inputs outputs)
             (gmx_cmd "mdrun" (before ++ a :: b :: after) inputs outputs)).
  - reflexivity.
  - rewrite !gmx_cmd_flat.
    change (launcher "mdrun") with ["mpirun"; "gmx_mpi"].
    rewrite <- !app_assoc, <- !app_comm_cons.
    apply (join_merges_words ("mpirun" :: "gmx_mpi" :: "mdrun" :: before)).
Qed.

(** In direct mode the two are told apart: the words go to the process as
    they are. *)
Example gmx_direct_keeps_word_bounds :
  processes_started
    (fst (run (gmx "grompp" ["-f minim.mdp"] [] [] None None None None false None)
              broken_world))
  = [["gmx"; "grompp"; "-f minim.mdp"]].
Proof. reflexivity. Qed.

(** * Further properties of the plots *)

(** ** What a computation adds to the trace *)

Section Only.
Variable P : event -> Prop.

Lemma only_ret {A : Type} (a : A) : only P (ret a : IO A).
Proof. intros w t. exists []. simpl. now rewrite app_nil_r. Qed.

Lemma only_raise {A : Type} (e : exn) : only P (raise e : IO A).
Proof. intros w t. exists []. simpl. now rewrite app_nil_r. Qed.

Lemma only_lift {A : Type} (r : result A) : only P (lift r).
Proof. intros w t. exists []. simpl. now rewrite app_nil_r. Qed.

Lemma only_ask {A : Type} (f : world -> A) : only P (ask f).
Proof. intros w t. exists []. simpl. now rewrite app_nil_r. Qed.

Lemma only_call (e : event) : P e -> only P (call e).
Proof. intros He w t. exists [e]. simpl. split; [reflexivity | now constructor]. Qed.

Lemma only_bind {A B : Type} (m : IO A) (k : A -> IO B) :
  only P m -> (forall a, only P (k a)) -> only P (x <- m ;; k x).
Proof.
  intros Hm Hk w t. rewrite bind_run.
  destruct (Hm w t) as [added [Ht Hadded]].
  destruct (m w t) as [t' [e|a]]; simpl in Ht; subst t'.
  - exists added. split; [reflexivity | assumption].
  - destruct (Hk a w (t ++ added)) as [added' [Ht' Hadded']].
    exists (added ++ added'). rewrite Ht', app_assoc.
    split; [reflexivity | now apply Forall_app].
Qed.

Lemma only_global (name : string) : only P (global name).
Proof. unfold global. destruct (existsb _ _); [apply only_ret | apply only_raise]. Qed.

Lemma only_time_time : only P time_time.
Proof. intros w t. exists []. simpl. now rewrite app_nil_r. Qed.

Lemma only_for_each {A : Type} (l : list A) (body : A -> IO unit) :
  (forall x, only P (body x)) -> only P (for_each l body).
Proof.
  intros Hbody. induction l as [|x l IH]; simpl.
  - apply only_ret.
  - apply only_bind; [apply Hbody | intros _; exact IH].
Qed.

Lemma only_for_fold {A S : Type} (l : list A) (body : A -> S -> IO S) :
  (forall x s, only P (body x s)) -> forall s, only P (for_fold l body s).
Proof.
  intros Hbody. induction l as [|x l IH]; intros s; simpl.
  - apply only_ret.
  - apply only_bind; [apply Hbody | intros s'; apply IH].
Qed.
End Only.

(** Breaking a computation down to its calls. *)
Ltac only_steps :=
  repeat first
    [ apply only_ret | apply only_raise | apply only_lift | apply only_ask
    | apply only_global | apply only_time_time
    | apply only_call; exact I
    | apply only_bind; [|intros]
    | apply only_for_each; intros
    | apply only_for_fold; intros
    | match goal with
      | |- only _ (if ?b then _ else _) => destruct b
      | |- only _ (match ?x with _ => _ end) => destruct x
      end ].

Lemma xvg_line_no_display (title subtitle path ensemble xlabel ylabel label sufix : string)
    (movavg : Z) :
  only not_display
    (xvg_line title subtitle path ensemble xlabel ylabel label sufix movavg).
Proof.
  unfold xvg_line, np_loadtxt, plt_call, ax_plot, scientific_if_dollar, plt_savefig.
  only_steps.
Qed.

Lemma xvg_multi_line_no_display (title path ensemble xlabel ylabel label_prefix : string)
    (replicas : Z) (sufix : string) (movavg : Z) (plot_type : string) :
  only not_display
    (xvg_multi_line title path ensemble xlabel ylabel label_prefix replicas sufix movavg
       plot_type).
Proof.
  unfold xvg_multi_line, xvg_multi_line_replica, viridis_colors, np_loadtxt, plt_call,
    ax_plot, scientific_if_dollar, plt_savefig.
  only_steps.
Qed.

Lemma no_display_displayed (l : list event) : Forall not_display l -> displayed l = [].
Proof.
  induction 1 as [|e l He _ IH]; [reflexivity|].
  destruct e; simpl in *; try exact IH. contradiction.
Qed.

(** X6: in every mode, in every world and for every input, [xvg] displays
    at most one table and only as its last call: when [xvg] raises nothing
    has been displayed, and when it returns the table is the last call of
    the trace and the only one displayed. *)
Theorem xvg_displays_last (title path ensemble xlabel ylabel label : string)
    (measure units : pyval) (values : option (list Q)) (replicas : option Z)
    (sufix : string) (movavg : Z) (multi_lines : bool) (plot_type : string) (w : world) :
  let r := run (xvg title path ensemble xlabel ylabel label measure units values replicas
                  sufix movavg multi_lines plot_type) w in
  match snd r with
  | inl _ => displayed (fst r) = []
  | inr _ => exists before html,
               fst r = before ++ [Display html] /\ displayed before = []
  end.
Proof.
  cbv zeta. unfold run, xvg. cbv zeta. rewrite bind_run.
  match goal with
  | |- context [?body w []] =>
      assert (Hbody : only not_display body);
      [| destruct (Hbody w []) as [added [Ht Hadded]];
         destruct (body w []) as [t' [e|html]]; simpl in Ht; subst t' ]
  end.
  - destruct replicas as [replicas|]; [destruct multi_lines|].
    + apply only_bind; [apply xvg_multi_line_no_display|intros]. only_steps.
    + apply only_for_fold. intros i html. unfold xvg_replica.
      apply only_bind; [apply only_lift|intros].
      apply only_bind; [apply xvg_line_no_display|intros]. only_steps.
    + apply only_bind; [apply xvg_line_no_display|intros]. only_steps.
  - simpl. now apply no_display_displayed.
  - rewrite display_html_run. simpl. do 2 eexists.
    split; [reflexivity | now apply no_display_displayed].
Qed.

(** ** xvg_line at its edges *)

(** The moving average when the window does not fit the table. *)
Lemma moving_average_misfit (rows : list (float * float)) (w : Z) :
  w <> 0%Z -> (w < 1 \/ Z.of_nat (List.length rows) < w)%Z ->
  (exists msg, moving_average (Arr2 rows) w = inl (ValueError msg))
  \/ (exists avg, moving_average (Arr2 rows) w = inr avg
                  /\ (2 <= List.length avg)%nat
                  /\ py_slice_from rows (w - 1) = []).
Proof.
  intros Hnz [Hneg|Hlong]; unfold moving_average, np_ones.
  - destruct (Z.ltb_spec w 0); [|lia]. left. eexists. reflexivity.
  - destruct (Z.ltb_spec w 0); [lia|]. simpl.
    unfold np_convolve_valid, np_divide. rewrite !length_map, repeat_length.
    destruct (Nat.ltb_spec (List.length rows) (Z.to_nat w)) as [_|Hge]; [|lia].
    simpl fst. simpl snd. rewrite !length_map, repeat_length.
    destruct (Nat.eqb_spec (Z.to_nat w) 0) as [H0|_]; [lia|].
    destruct (Nat.eqb_spec (List.length rows) 0) as [Hempty|Hrows].
    + left. eexists. reflexivity.
    + right. eexists. split; [reflexivity|]. split.
      * unfold correlate_valid.
        rewrite length_map, length_seq, length_rev, !length_map, repeat_length. lia.
      * unfold py_slice_from. destruct (Z.ltb_spec (w - 1) 0); [lia|].
        apply skipn_all2. lia.
Qed.

(** X7: a window that does not fit the table (negative, or longer than the
    table) makes [xvg_line] raise [ValueError] once the data line is drawn:
    no moving average is drawn and no figure is saved. *)
Theorem xvg_line_window_misfit (title subtitle path ensemble xlabel ylabel label sufix : string)
    (movavg : Z) (rows : list (float * float)) (w : world) :
  w_loadtxt w (path +++ "/" +++ ensemble +++ sufix +++ ".xvg") = inr (Arr2 rows) ->
  movavg <> 0%Z ->
  (movavg < 1 \/ Z.of_nat (List.length rows) < movavg)%Z ->
  exists msg,
    run (xvg_line title subtitle path ensemble xlabel ylabel label sufix movavg) w
    = ([ Loadtxt (path +++ "/" +++ ensemble +++ sufix +++ ".xvg");
         NewFigure;
         PlotLine (map fst rows) (map snd rows) false (Named "black") label ],
       inl (ValueError msg)).
Proof.
  intros Hload Hnz Hmis.
  unfold run, xvg_line, np_loadtxt, plt_savefig, plt_call, scientific_if_dollar, ax_plot.
  io_unfold. simpl in Hload. rewrite Hload. simpl.
  rewrite !length_map, Nat.eqb_refl. simpl.
  destruct (Z.eqb_spec movavg 0) as [E0|_]; [contradiction|]. simpl.
  destruct (moving_average_misfit rows Hnz Hmis)
    as [[msg Hraise]|[avg [Havg [Hlen Hslice]]]].
  - rewrite Hraise. eexists. reflexivity.
  - rewrite Havg, Hslice. simpl.
    destruct avg as [|a avg]; [simpl in Hlen; lia|].
    eexists. reflexivity.
Qed.

Lemma xvg_line_window_misfit_witness :
  exists msg,
    run (xvg_line "Temperature" "" "/data" "temp" "Time (ps)" "T (K)" "Run" "" 101)
        (steady_world 0 "" "" (Arr2 hundred_rows))
    = ([ Loadtxt ("/data" +++ "/" +++ "temp" +++ "" +++ ".xvg");
         NewFigure;
         PlotLine (map fst hundred_rows) (map snd hundred_rows) false (Named "black") "Run" ],
       inl (ValueError msg)).
Proof.
  apply xvg_line_window_misfit.
  - reflexivity.
  - discriminate.
  - right. rewrite hundred_rows_length. lia.
Defined.

(** X8: data that cannot be loaded, or that loads as a one-dimensional array
    (a file of a single row), stops [xvg_line] before anything is drawn: the
    exception of the load propagates as it is, the one-dimensional array
    raises [IndexError], and no figure is saved. *)
Theorem xvg_line_unusable_data (title subtitle path ensemble xlabel ylabel label sufix : string)
    (movavg : Z) (w : world) :
  let file := path +++ "/" +++ ensemble +++ sufix +++ ".xvg" in
  let r := run (xvg_line title subtitle path ensemble xlabel ylabel label sufix movavg) w in
  (forall e, w_loadtxt w file = inl e -> r = ([Loadtxt file], inl e))
  /\ (forall values, w_loadtxt w file = inr (Arr1 values) ->
        r = ([Loadtxt file; NewFigure], inl one_dimensional)).
Proof.
  cbv zeta. unfold run, xvg_line, np_loadtxt, plt_call. io_unfold.
  split; intros x Hx; rewrite Hx; reflexivity.
Qed.

Lemma xvg_line_unusable_data_witness :
  run (xvg_line "Temperature" "" "/data" "temp" "Time (ps)" "T (K)" "Run" "" 10)
      (steady_world 0 "" "" (Arr1 [float_of_Z 0; float_of_Z 300]))
  = ([Loadtxt "/data/temp.xvg"; NewFigure], inl one_dimensional).
Proof.
  refine (proj2 (@xvg_line_unusable_data "Temperature" "" "/data" "temp" "Time (ps)"
                   "T (K)" "Run" "" 10 (steady_world 0 "" "" (Arr1 [float_of_Z 0; float_of_Z 300])))
            [float_of_Z 0; float_of_Z 300] _).
  reflexivity.
Defined.

(** X9: the moving average trails its window: its [k]-th point is drawn at
    the first-column value of row [k + w - 1], the last row of the window it
    averages. *)
Theorem overlay_trails_window (rows : list (float * float)) (w : Z) (avg : list float) (k : nat) :
  (1 <= w)%Z -> (w <= Z.of_nat (List.length rows))%Z ->
  moving_average (Arr2 rows) w = inr avg ->
  (k < List.length avg)%nat ->
  exists xs,
    overlay_line rows w avg = PlotLine xs avg false (Named "red") "10 ps Moving average"
    /\ List.length xs = List.length avg
    /\ nth_error xs k = option_map fst (nth_error rows (k + Z.to_nat w - 1)).
Proof.
  intros Hw Hn Havg Hk.
  pose proof (moving_average_length rows Hw Hn Havg) as Hlen.
  exists (map fst (py_slice_from rows (w - 1))).
  split; [reflexivity|]. split; [rewrite slice_length by assumption; lia|].
  unfold py_slice_from. destruct (Z.ltb_spec (w - 1) 0); [lia|].
  rewrite nth_error_map, nth_error_skipn. f_equal. f_equal. lia.
Qed.

Lemma overlay_trails_window_witness :
  exists avg xs,
    moving_average (Arr2 hundred_rows) 10 = inr avg
    /\ overlay_line hundred_rows 10 avg
       = PlotLine xs avg false (Named "red") "10 ps Moving average"
    /\ nth_error xs 0 = Some (float_of_Z 9).
Proof.
  assert (Hw : (1 <= 10)%Z) by lia.
  assert (Hn : (10 <= Z.of_nat (List.length hundred_rows))%Z)
    by (rewrite hundred_rows_length; lia).
  pose proof (moving_average_value hundred_rows Hw Hn) as Havg.
  destruct (@overlay_trails_window hundred_rows 10 _ 0 Hw Hn Havg) as (xs & Hline & _ & Hx).
  - rewrite length_map, length_seq, hundred_rows_length. simpl. lia.
  - eexists. exists xs. split; [exact Havg|]. split; [exact Hline|]. exact Hx.
Defined.

(** ** xvg_multi_line *)

Lemma lines_drawn_app (a b : list event) : lines_drawn (a ++ b) = lines_drawn a ++ lines_drawn b.
Proof. apply flat_map_app. Qed.

Lemma py_index_defined {A : Type} (l : list A) (i : Z) :
  (0 <= i < Z.of_nat (List.length l))%Z -> exists x, py_index l i = inr x.
Proof.
  intros Hi. unfold py_index.
  destruct (Z.ltb_spec i 0) as [Hneg|_]; [lia|].
  destruct (Z.ltb_spec i 0) as [Hneg|_]; [lia|].
  destruct (nth_error l (Z.to_nat i)) as [x|] eqn:Hx.
  - eexists. reflexivity.
  - apply nth_error_None in Hx. lia.
Qed.

Lemma viridis_colors_length (n : Z) (w : world) (t : list event) :
  (0 <= n)%Z ->
  exists colors, viridis_colors n w t = (t, inr colors)
                 /\ List.length colors = Z.to_nat n.
Proof.
  intros Hn. unfold viridis_colors, np_linspace01. io_unfold.
  destruct (Z.ltb_spec n 0); [lia|]. eexists. split; [reflexivity|].
  now rewrite !length_map, length_seq.
Qed.

(** A round of [xvg_multi_line] on a table: the file it reads and the lines
    it draws. *)
Lemma xvg_multi_line_round (path label_prefix sufix : string) (movavg : Z)
    (plot_type : string) (colors : list color) (i : Z) (w : world) (t : list event) :
  round_ready w path sufix movavg plot_type i ->
  (exists c, py_index colors i = inr c) ->
  exists added,
    xvg_multi_line_replica path label_prefix sufix movavg plot_type colors i w t
    = (t ++ added, inr tt)
    /\ files_read added = [replica_file path sufix i]
    /\ figures_saved added = []
    /\ lines_drawn added = round_lines movavg plot_type.
Proof.
  intros [rows [Hload Hfit]] [c Hc].
  unfold round_lines, needs_average in *. unfold replica_file in Hload.
  unfold xvg_multi_line_replica, np_loadtxt, ax_plot.
  destruct (in_list plot_type ["both"; "values"]);
    destruct (negb (movavg =? 0)%Z && in_list plot_type ["both"; "moving_average"]) eqn:Hma.
  all: try (destruct Hfit as [Hfit|[Hw Hn]]; [discriminate|];
            pose proof (moving_average_value rows Hw Hn) as Havg;
            pose proof (moving_average_length rows Hw Hn Havg) as Hlen;
            pose proof (slice_length rows Hw Hn) as Hsl; rewrite length_map in Hsl).
  all: io_unfold; simpl in Hload; rewrite Hload; simpl; rewrite ?Havg, ?Hc;
    repeat (rewrite ?length_map, ?length_seq, ?Hsl, ?Nat.eqb_refl; simpl);
    rewrite <- ?app_assoc; eexists; split; [reflexivity | repeat split].
Qed.

Lemma for_each_cons {A : Type} (x : A) (rest : list A) (body : A -> IO unit)
    (w : world) (t : list event) :
  for_each (x :: rest) body w t
  = match body x w t with
    | (t', inl e) => (t', inl e)
    | (t', inr _) => for_each rest body w t'
    end.
Proof. reflexivity. Qed.

(** The loop of [xvg_multi_line] over the rounds [indices]. *)
Lemma xvg_multi_line_rounds (path label_prefix sufix : string) (movavg : Z)
    (plot_type : string) (colors : list color) (w : world) (indices : list Z) :
  (forall i, In i indices ->
     round_ready w path sufix movavg plot_type i
     /\ exists c, py_index colors i = inr c) ->
  forall t, exists added,
    for_each indices (xvg_multi_line_replica path label_prefix sufix movavg plot_type colors)
      w t
    = (t ++ added, inr tt)
    /\ files_read added = map (replica_file path sufix) indices
    /\ figures_saved added = []
    /\ lines_drawn added = flat_map (fun _ => round_lines movavg plot_type) indices.
Proof.
  induction indices as [|i rest IH]; intros Hready t.
  - exists []. simpl. rewrite app_nil_r. repeat split.
  - destruct (Hready i (or_introl eq_refl)) as [Hi Hc].
    destruct (xvg_multi_line_round label_prefix colors t Hi Hc)
      as (added & Hrun & Hread & Hsaved & Hlines).
    destruct (IH (fun j H => Hready j (or_intror H)) (t ++ added))
      as (added' & Hrun' & Hread' & Hsaved' & Hlines').
    exists (added ++ added').
    rewrite for_each_cons, Hrun, Hrun', app_assoc.
    split; [reflexivity|].
    rewrite files_read_app, figures_saved_app, lines_drawn_app.
    rewrite Hread, Hread', Hsaved, Hsaved', Hlines, Hlines'. repeat split.
Qed.

(** [xvg_multi_line] where every round is ready and the figure can be
    saved. *)
Lemma xvg_multi_line_run (title path ensemble xlabel ylabel label_prefix : string)
    (replicas : Z) (sufix : string) (movavg : Z) (plot_type : string) (w : world)
    (t : list event) :
  (0 <= replicas)%Z ->
  (forall i, (0 <= i < replicas)%Z -> round_ready w path sufix movavg plot_type i) ->
  w_savefig w (path +++ "/" +++ ensemble +++ sufix +++ ".png") = None ->
  exists added,
    xvg_multi_line title path ensemble xlabel ylabel label_prefix replicas sufix movavg
      plot_type w t
    = (t ++ added, inr tt)
    /\ files_read added = map (replica_file path sufix) (py_range 0 replicas)
    /\ figures_saved added = [path +++ "/" +++ ensemble +++ sufix +++ ".png"]
    /\ lines_drawn added
       = flat_map (fun _ => round_lines movavg plot_type) (py_range 0 replicas).
Proof.
  intros Hn Hready Hsave. unfold xvg_multi_line.
  rewrite bind_run.
  change (plt_call NewFigure w t) with (t ++ [NewFigure], @inr exn unit tt).
  cbv beta iota. rewrite bind_run.
  destruct (@viridis_colors_length replicas w (t ++ [NewFigure]) Hn)
    as [colors [Hcolors Hlen]].
  rewrite Hcolors. cbv beta iota. rewrite bind_run.
  destruct (@xvg_multi_line_rounds path label_prefix sufix movavg plot_type colors w
              (py_range 0 replicas)) with (t := t ++ [NewFigure])
    as (added & Hrun & Hread & Hsaved & Hlines).
  { intros i Hi. apply py_range_bounds in Hi. split; [apply Hready; lia|].
    apply py_index_defined. lia. }
  rewrite Hrun.
  unfold plt_savefig, plt_call, scientific_if_dollar. io_unfold.
  simpl in Hsave. rewrite Hsave.
  destruct (has_char "$" ylabel); simpl; eexists;
    (split; [rewrite <- !app_assoc; reflexivity|]);
    rewrite ?files_read_app, ?figures_saved_app, ?lines_drawn_app,
      ?Hread, ?Hsaved, ?Hlines; simpl; rewrite ?app_nil_r; repeat split.
Qed.

Lemma flat_map_constant {A B : Type} (l : list A) (ys : list B) :
  flat_map (fun _ => ys) l = List.concat (repeat ys (List.length l)).
Proof. induction l as [|x l IH]; simpl; [reflexivity | now rewrite IH]. Qed.

(** X10: [xvg_multi_line] reads one data file for each of the [replicas]
    replicas, replica01 to replica[replicas] in that order, and saves a
    single figure; each round draws a solid line when the plot type asks for
    values and a dashed one when a moving average is computed. *)
Theorem xvg_multi_line_reads_every_replica
    (title path ensemble xlabel ylabel label_prefix : string)
    (replicas : Z) (sufix : string) (movavg : Z) (plot_type : string) (w : world) :
  (0 <= replicas)%Z ->
  (forall i, (0 <= i < replicas)%Z -> round_ready w path sufix movavg plot_type i) ->
  w_savefig w (path +++ "/" +++ ensemble +++ sufix +++ ".png") = None ->
  exists trace,
    run (xvg_multi_line title path ensemble xlabel ylabel label_prefix replicas sufix
           movavg plot_type) w
    = (trace, inr tt)
    /\ files_read trace = map (replica_file path sufix) (py_range 0 replicas)
    /\ Z.of_nat (List.length (files_read trace)) = replicas
    /\ figures_saved trace = [path +++ "/" +++ ensemble +++ sufix +++ ".png"]
    /\ lines_drawn trace
       = List.concat (repeat (round_lines movavg plot_type) (Z.to_nat replicas)).
Proof.
  intros Hn Hready Hsave.
  destruct (@xvg_multi_line_run title path ensemble xlabel ylabel label_prefix replicas
              sufix movavg plot_type w [] Hn Hready Hsave)
    as (added & Hrun & Hread & Hsaved & Hlines).
  exists added. unfold run. rewrite Hrun.
  split; [reflexivity|]. split; [exact Hread|].
  split; [rewrite Hread, length_map, py_range_length; lia|].
  split; [exact Hsaved|].
  rewrite Hlines, flat_map_constant, py_range_length. f_equal. f_equal. lia.
Qed.

Lemma xvg_multi_line_reads_every_replica_witness :
  exists trace,
    run (xvg_multi_line "Temperature" "/data" "temp" "Time (ps)" "T (K)" "Run" 3 "_eq"
           10 "both") (steady_world 0 "" "" (Arr2 hundred_rows))
    = (trace, inr tt)
    /\ files_read trace
       = ["/data/replica01_eq.xvg"; "/data/replica02_eq.xvg"; "/data/replica03_eq.xvg"]
    /\ figures_saved trace = ["/data/temp_eq.png"]
    /\ lines_drawn trace = [false; true; false; true; false; true].
Proof.
  destruct (@xvg_multi_line_reads_every_replica "Temperature" "/data" "temp" "Time (ps)"
              "T (K)" "Run" 3 "_eq" 10 "both" (steady_world 0 "" "" (Arr2 hundred_rows)))
    as (trace & Hrun & Hread & _ & Hsaved & Hlines).
  - lia.
  - intros i _. exists hundred_rows. split; [reflexivity|].
    right. rewrite hundred_rows_length. lia.
  - reflexivity.
  - exists trace. split; [exact Hrun|]. split; [exact Hread|]. split; [exact Hsaved|].
    exact Hlines.
Defined.

(** X11: unless the plot type is [both] or [moving_average], the window plays
    no part in [xvg_multi_line]: whatever [movavg] is, fitting the tables or
    not, no moving average is computed or drawn; with the plot type [values]
    each replica gets its solid line, and with any other plot type nothing
    is drawn at all, though the files are read and the figure is saved. *)
Theorem xvg_multi_line_without_average
    (title path ensemble xlabel ylabel label_prefix : string)
    (replicas : Z) (sufix : string) (movavg : Z) (plot_type : string) (w : world) :
  (0 <= replicas)%Z ->
  (forall i, (0 <= i < replicas)%Z ->
     exists rows, w_loadtxt w (replica_file path sufix i) = inr (Arr2 rows)) ->
  w_savefig w (path +++ "/" +++ ensemble +++ sufix +++ ".png") = None ->
  in_list plot_type ["both"; "moving_average"] = false ->
  exists trace,
    run (xvg_multi_line title path ensemble xlabel ylabel label_prefix replicas sufix
           movavg plot_type) w
    = (trace, inr tt)
    /\ figures_saved trace = [path +++ "/" +++ ensemble +++ sufix +++ ".png"]
    /\ lines_drawn trace
       = if String.eqb plot_type "values" then repeat false (Z.to_nat replicas) else [].
Proof.
  intros Hn Hload Hsave Hpt.
  assert (Hna : needs_average movavg plot_type = false).
  { unfold needs_average. rewrite Hpt. apply andb_false_r. }
  destruct (@xvg_multi_line_run title path ensemble xlabel ylabel label_prefix replicas
              sufix movavg plot_type w [] Hn)
    as (added & Hrun & Hread & Hsaved & Hlines); [|exact Hsave|].
  { intros i Hi. destruct (Hload i Hi) as [rows Hrows].
    exists rows. split; [exact Hrows | now left]. }
  exists added. unfold run. rewrite Hrun.
  split; [reflexivity|]. split; [exact Hsaved|].
  rewrite Hlines, flat_map_constant, py_range_length. unfold round_lines. rewrite Hna.
  replace (Z.to_nat (replicas - 0)) with (Z.to_nat replicas) by lia.
  simpl in Hpt. simpl.
  destruct (String.eqb plot_type "both"); [discriminate|]. simpl.
  destruct (String.eqb plot_type "values"); simpl.
  - induction (Z.to_nat replicas) as [|n IH]; simpl; [reflexivity | now rewrite IH].
  - induction (Z.to_nat replicas) as [|n IH]; simpl; [reflexivity | exact IH].
Qed.

Lemma xvg_multi_line_without_average_witness :
  exists trace,
    run (xvg_multi_line "Temperature" "/data" "temp" "Time (ps)" "T (K)" "Run" 2 ""
           500 "values") (steady_world 0 "" "" (Arr2 hundred_rows))
    = (trace, inr tt)
    /\ figures_saved trace = ["/data/temp.png"]
    /\ lines_drawn trace = [false; false].
Proof.
  destruct (@xvg_multi_line_without_average "Temperature" "/data" "temp" "Time (ps)"
              "T (K)" "Run" 2 "" 500 "values" (steady_world 0 "" "" (Arr2 hundred_rows)))
    as (trace & Hrun & Hsaved & Hlines).
  - lia.
  - intros i _. exists hundred_rows. reflexivity.
  - reflexivity.
  - reflexivity.
  - exists trace. split; [exact Hrun|]. split; [exact Hsaved | exact Hlines].
Defined.

(** ** xvg: its three modes *)

(** X12: without [replicas], [xvg] draws the one plot of [xvg_line], with
    an empty subtitle, and displays a table of a single cell: an image
    whose address is the saved figure, a question mark and the time read
    once the figure is closed, at the full width. *)
Theorem xvg_single_plot (title path ensemble xlabel ylabel label : string)
    (measure units : pyval) (values : option (list Q)) (sufix : string) (movavg : Z)
    (multi_lines : bool) (plot_type : string) (w : world) (rows : list (float * float)) :
  w_loadtxt w (path +++ "/" +++ ensemble +++ sufix +++ ".xvg") = inr (Arr2 rows) ->
  w_savefig w (path +++ "/" +++ ensemble +++ sufix +++ ".png") = None ->
  movavg = 0%Z \/ (1 <= movavg <= Z.of_nat (List.length rows))%Z ->
  let plot := xvg_line_calls title "" path ensemble xlabel ylabel label sufix movavg rows
              ++ [CloseFigure] in
  run (xvg title path ensemble xlabel ylabel label measure units values None sufix movavg
         multi_lines plot_type) w
  = (plot ++ [Display ("<table>"
                       +++ "<td><img src=" +++ dquote
                       +++ path +++ "/" +++ ensemble +++ sufix +++ ".png"
                       +++ "?" +++ w_clock w (List.length plot) +++ dquote
                       +++ " style=" +++ dquote +++ "width:100%" +++ dquote +++ "></td>"
                       +++ "</table>")],
     inr tt).
Proof.
  intros Hload Hsave Hmov. cbv zeta. unfold run, xvg. cbv zeta.
  rewrite !bind_run.
  rewrite (@xvg_line_run title "" path ensemble xlabel ylabel label sufix movavg rows w []
             Hload Hmov).
  cbv zeta. rewrite Hsave. cbv beta iota.
  rewrite bind_run, time_time_run. cbv beta iota.
  rewrite ret_run. cbv beta iota.
  rewrite display_html_run. unfold img_cell. rewrite !append_assoc. reflexivity.
Qed.

Lemma xvg_single_plot_witness :
  let plot := xvg_line_calls "Temperature" "" "/data" "temp" "Time (ps)" "T (K)" "Run" ""
                10 hundred_rows ++ [CloseFigure] in
  run (xvg "Temperature" "/data" "temp" "Time (ps)" "T (K)" "Run" VNone VNone None None ""
         10 false "values") (steady_world 0 "" "" (Arr2 hundred_rows))
  = (plot ++ [Display ("<table>"
                       +++ "<td><img src=" +++ dquote
                       +++ "/data" +++ "/" +++ "temp" +++ "" +++ ".png"
                       +++ "?" +++ w_clock (steady_world 0 "" "" (Arr2 hundred_rows))
                                     (List.length plot) +++ dquote
                       +++ " style=" +++ dquote +++ "width:100%" +++ dquote +++ "></td>"
                       +++ "</table>")],
     inr tt).
Proof.
  apply (@xvg_single_plot "Temperature" "/data" "temp" "Time (ps)" "T (K)" "Run" VNone VNone
           None "" 10 false "values" (steady_world 0 "" "" (Arr2 hundred_rows)) hundred_rows).
  - reflexivity.
  - reflexivity.
  - right. rewrite hundred_rows_length. lia.
Defined.

(** X13: with [multi_lines], [xvg] hands over to [xvg_multi_line]: it reads
    the data file of every one of the [replicas] replicas (the mode of one
    plot for each replica stops one short of that), saves the single figure
    and displays a table of one cell: an image whose address is that
    figure, a question mark and the time read after the plot, at the full
    width. *)
Theorem xvg_multi_lines_mode (title path ensemble xlabel ylabel label : string)
    (measure units : pyval) (values : option (list Q)) (replicas : Z) (sufix : string)
    (movavg : Z) (plot_type : string) (w : world) :
  (0 <= replicas)%Z ->
  (forall i, (0 <= i < replicas)%Z -> round_ready w path sufix movavg plot_type i) ->
  w_savefig w (path +++ "/" +++ ensemble +++ sufix +++ ".png") = None ->
  exists trace,
    run (xvg title path ensemble xlabel ylabel label measure units values (Some replicas)
           sufix movavg true plot_type) w
    = (trace ++ [Display ("<table>"
                          +++ "<td><img src=" +++ dquote
                          +++ path +++ "/" +++ ensemble +++ sufix +++ ".png"
                          +++ "?" +++ w_clock w (List.length trace) +++ dquote
                          +++ " style=" +++ dquote +++ "width:100%" +++ dquote +++ "></td>"
                          +++ "</table>")],
       inr tt)
    /\ files_read trace = map (replica_file path sufix) (py_range 0 replicas)
    /\ Z.of_nat (List.length (files_read trace)) = replicas
    /\ figures_saved trace = [path +++ "/" +++ ensemble +++ sufix +++ ".png"].
Proof.
  intros Hn Hready Hsave.
  destruct (@xvg_multi_line_run title path ensemble xlabel ylabel label replicas
              sufix movavg plot_type w [] Hn Hready Hsave)
    as (added & Hrun & Hread & Hsaved & _).
  exists added. split.
  - unfold run, xvg. cbv zeta. rewrite !bind_run. rewrite Hrun. cbv beta iota.
    rewrite bind_run, time_time_run. cbv beta iota.
    rewrite ret_run. cbv beta iota.
    rewrite display_html_run. unfold img_cell. rewrite !append_assoc. reflexivity.
  - split; [exact Hread|].
    split; [rewrite Hread, length_map, py_range_length; lia | exact Hsaved].
Qed.

Lemma xvg_multi_lines_mode_witness :
  exists trace,
    run (xvg "Temperature" "/data" "temp" "Time (ps)" "T (K)" "Run" VNone VNone None
           (Some 3%Z) "" 0 true "values") (steady_world 0 "" "" (Arr2 hundred_rows))
    = (trace ++ [Display ("<table>"
                          +++ "<td><img src=" +++ dquote
                          +++ "/data" +++ "/" +++ "temp" +++ "" +++ ".png"
                          +++ "?" +++ w_clock (steady_world 0 "" "" (Arr2 hundred_rows))
                                        (List.length trace) +++ dquote
                          +++ " style=" +++ dquote +++ "width:100%" +++ dquote +++ "></td>"
                          +++ "</table>")],
       inr tt)
    /\ files_read trace
       = ["/data/replica01.xvg"; "/data/replica02.xvg"; "/data/replica03.xvg"].
Proof.
  destruct (@xvg_multi_lines_mode "Temperature" "/data" "temp" "Time (ps)" "T (K)" "Run"
              VNone VNone None 3 "" 0 "values" (steady_world 0 "" "" (Arr2 hundred_rows)))
    as (trace & Hrun & Hread & _).
  - lia.
  - intros i _. exists hundred_rows. split; [reflexivity | now left].
  - reflexivity.
  - exists trace. split; [exact Hrun | exact Hread].
Defined.

(** X14: in the mode of one plot for each replica, with at most one replica
    (none, or a negative number) the loop is not entered: in every world
    [xvg] reads no file, draws nothing and displays the empty table. *)
Theorem xvg_no_replica_to_plot (title path ensemble xlabel ylabel label : string)
    (measure units : pyval) (values : option (list Q)) (replicas : Z) (sufix : string)
    (movavg : Z) (plot_type : string) (w : world) :
  (replicas <= 1)%Z ->
  run (xvg title path ensemble xlabel ylabel label measure units values (Some replicas)
         sufix movavg false plot_type) w
  = ([Display "<table></table>"], inr tt).
Proof.
  intros Hn. unfold run, xvg. cbv zeta.
  unfold py_range. replace (Z.to_nat (replicas - 1)) with 0%nat by lia. reflexivity.
Qed.

Lemma xvg_no_replica_to_plot_witness :
  run (xvg "Temperature" "/data" "temp" "Time (ps)" "T (K)" "Run" VNone VNone None
         (Some 0%Z) "" 10 false "values") broken_world
  = ([Display "<table></table>"], inr tt).
Proof.
  apply xvg_no_replica_to_plot. lia.
Defined.

(** X15: in the mode of one plot for each replica, when the ensemble is not
    [min] and no [values] are given (the default), [xvg] with two replicas
    or more raises [TypeError] on the first subtitle: no file is read,
    nothing is drawn and nothing is displayed. *)
Theorem xvg_values_missing (title path ensemble xlabel ylabel label : string)
    (measure units : pyval) (replicas : Z) (sufix : string) (movavg : Z)
    (plot_type : string) (w : world) :
  ensemble <> "min" ->
  (2 <= replicas)%Z ->
  run (xvg title path ensemble xlabel ylabel label measure units None (Some replicas)
         sufix movavg false plot_type) w
  = ([], inl (TypeError "'NoneType' object is not subscriptable")).
Proof.
  intros Hens Hn. unfold run, xvg. cbv zeta.
  rewrite (@py_range_cons 1 replicas) by lia.
  rewrite bind_run, for_fold_cons. unfold xvg_replica, replica_subtitle.
  destruct (String.eqb_spec ensemble "min") as [E|_]; [contradiction|].
  reflexivity.
Qed.

Lemma xvg_values_missing_witness :
  run (xvg "Temperature" "/data" "temp" "Time (ps)" "T (K)" "Run" (VStr "T") (VStr "K") None
         (Some 3%Z) "" 0 false "values") (steady_world 0 "" "" (Arr2 hundred_rows))
  = ([], inl (TypeError "'NoneType' object is not subscriptable")).
Proof.
  apply xvg_values_missing; [discriminate | lia].
Defined.

Lemma seq_from (n m : nat) : seq n m = map (fun k => (n + k)%nat) (seq 0 m).
Proof.
  revert n. induction m as [|m IH]; intros n; [reflexivity|].
  simpl. f_equal; [lia|].
  rewrite <- (seq_shift m 0), map_map, (IH (S n)). apply map_ext. intros k. lia.
Qed.

Lemma py_range_app (a b c : Z) :
  (a <= b <= c)%Z -> py_range a c = py_range a b ++ py_range b c.
Proof.
  intros Habc. unfold py_range.
  replace (Z.to_nat (c - a)) with (Z.to_nat (b - a) + Z.to_nat (c - b))%nat by lia.
  rewrite seq_app, map_app. f_equal.
  rewrite (seq_from (0 + Z.to_nat (b - a))), map_map.
  apply map_ext. intros k. lia.
Qed.

Lemma for_fold_app {A S : Type} (l1 l2 : list A) (body : A -> S -> IO S) (w : world) :
  forall (s : S) (t : list event),
    for_fold (l1 ++ l2) body s w t
    = match for_fold l1 body s w t with
      | (t', inl e) => (t', inl e)
      | (t', inr s') => for_fold l2 body s' w t'
      end.
Proof.
  induction l1 as [|x l1 IH]; intros s t; [reflexivity|].
  rewrite <- app_comm_cons, !for_fold_cons.
  destruct (body x s w t) as [t' [e|s']]; [reflexivity | apply IH].
Qed.

Lemma xvg_replica_no_display (title path ensemble xlabel ylabel label : string)
    (measure units : pyval) (values : option (list Q)) (sufix : string) (movavg : Z)
    (i : Z) (html : string) :
  only not_display
    (xvg_replica title path ensemble xlabel ylabel label measure units values sufix movavg
       i html).
Proof.
  unfold xvg_replica.
  apply only_bind; [apply only_lift|intros].
  apply only_bind; [apply xvg_line_no_display|intros]. only_steps.
Qed.

Lemma replica_subtitle_out_of_range (ensemble : string) (measure units : pyval)
    (vs : list Q) (i : Z) :
  ensemble <> "min" -> (Z.of_nat (List.length vs) < i)%Z ->
  replica_subtitle ensemble measure units (Some vs) i
  = inl (IndexError "list index out of range").
Proof.
  intros Hens Hi. unfold replica_subtitle.
  destruct (String.eqb_spec ensemble "min") as [E|_]; [contradiction|].
  unfold subscript_values, py_index.
  destruct (Z.ltb_spec (i - 1) 0) as [Hneg|_]; [lia|].
  destruct (Z.ltb_spec (i - 1) 0) as [Hneg|_]; [lia|].
  destruct (nth_error vs (Z.to_nat (i - 1))) as [v|] eqn:Hv; [|reflexivity].
  assert (Hlt : (Z.to_nat (i - 1) < List.length vs)%nat)
    by (apply nth_error_Some; congruence).
  lia.
Qed.

(** X16: in the mode of one plot for each replica, when the ensemble is not
    [min] and [values] is shorter than the [replicas - 1] plots to draw,
    [xvg] draws the plots of the first [len(values)] replica directories
    and then raises [IndexError]: their figures are saved but no table is
    displayed. *)
Theorem xvg_values_too_short (title path ensemble xlabel ylabel label : string)
    (measure units : pyval) (vs : list Q) (replicas : Z) (sufix : string) (movavg : Z)
    (plot_type : string) (w : world) :
  ensemble <> "min" ->
  (Z.of_nat (List.length vs) < replicas - 1)%Z ->
  (forall i, (1 <= i <= Z.of_nat (List.length vs))%Z ->
     replica_ready w path ensemble sufix movavg i) ->
  let plotted := py_range 1 (Z.of_nat (List.length vs) + 1) in
  exists trace,
    run (xvg title path ensemble xlabel ylabel label measure units (Some vs)
           (Some replicas) sufix movavg false plot_type) w
    = (trace, inl (IndexError "list index out of range"))
    /\ files_read trace = map (replica_xvg path ensemble sufix) plotted
    /\ figures_saved trace = map (replica_png path ensemble sufix) plotted
    /\ displayed trace = [].
Proof.
  intros Hens Hshort Hready. cbv zeta.
  set (k := Z.of_nat (List.length vs)) in *.
  assert (Hall : forall i, In i (py_range 1 (k + 1)) ->
                   replica_ready w path ensemble sufix movavg i
                   /\ exists subtitle,
                        replica_subtitle ensemble measure units (Some vs) i = inr subtitle).
  { intros i Hi. apply py_range_bounds in Hi. split; [apply Hready; lia|].
    apply replica_subtitle_defined. right. exists vs. split; [reflexivity|]. fold k. lia. }
  destruct (@xvg_replicas_run title path ensemble xlabel ylabel label measure units
              (Some vs) sufix movavg w (py_range 1 (k + 1)) Hall [] "<table>")
    as (trace & stamps & Hrun & _ & Hread & Hsaved & _).
  exists trace. split.
  - unfold run, xvg. cbv zeta. rewrite bind_run.
    rewrite (@py_range_app 1 (k + 1) replicas) by lia.
    rewrite for_fold_app, Hrun.
    rewrite (@py_range_cons (k + 1) replicas) by lia.
    rewrite for_fold_cons. unfold xvg_replica at 1. rewrite bind_run. unfold lift at 1.
    rewrite replica_subtitle_out_of_range by (fold k; lia || assumption).
    reflexivity.
  - split; [exact Hread|]. split; [exact Hsaved|].
    destruct (only_for_fold (P := not_display) (py_range 1 (k + 1))
                (xvg_replica title path ensemble xlabel ylabel label measure units
                   (Some vs) sufix movavg)
                (fun i html => xvg_replica_no_display title path ensemble xlabel ylabel
                                 label measure units (Some vs) sufix movavg i html)
                "<table>" w []) as [added [Ht Hadded]].
    rewrite Hrun in Ht. simpl in Ht. subst trace.
    now apply no_display_displayed.
Qed.

Lemma xvg_values_too_short_witness :
  exists trace,
    run (xvg "Temperature" "/data" "temp" "Time (ps)" "T (K)" "Run" (VStr "T") (VStr "K")
           (Some [300]%Q) (Some 4%Z) "" 0 false "values")
        (steady_world 0 "" "" (Arr2 hundred_rows))
    = (trace, inl (IndexError "list index out of range"))
    /\ files_read trace = ["/data/replica01/temp.xvg"]
    /\ figures_saved trace = ["/data/replica01/temp.png"]
    /\ displayed trace = [].
Proof.
  destruct (@xvg_values_too_short "Temperature" "/data" "temp" "Time (ps)" "T (K)" "Run"
              (VStr "T") (VStr "K") [300]%Q 4 "" 0 "values"
              (steady_world 0 "" "" (Arr2 hundred_rows)))
    as (trace & Hrun & Hread & Hsaved & Hdisp).
  - discriminate.
  - simpl. lia.
  - intros i _. split; [|reflexivity]. exists hundred_rows. split; [reflexivity | now left].
  - exists trace. split; [exact Hrun|]. split; [exact Hread|]. split; [exact Hsaved|].
    exact Hdisp.
Defined.

(** ** xvg_multi_density without replicas *)

(** X17: with [replicas] zero the loop of [xvg_multi_density] is not entered
    and the name [sns] is never read: the function returns, having saved a
    figure without any curve at [<path>/<ensemble><sufix>_density.png]. *)
Theorem xvg_multi_density_zero_replicas (title path ensemble xlabel ylabel label_prefix : string)
    (sufix : string) (bandwidth : option Q) (w : world) :
  let figure := path +++ "/" +++ ensemble +++ sufix +++ "_density.png" in
  run (xvg_multi_density title path ensemble xlabel ylabel label_prefix 0 sufix bandwidth) w
  = match w_savefig w figure with
    | None => ([NewFigure; Suptitle title; Xlabel xlabel; Ylabel ylabel; Legend;
                Savefig figure; CloseFigure], inr tt)
    | Some e => ([NewFigure; Suptitle title; Xlabel xlabel; Ylabel ylabel; Legend;
                  Savefig figure], inl e)
    end.
Proof.
  cbv zeta. unfold run, xvg_multi_density, plt_savefig, plt_call, viridis_colors. io_unfold.
  destruct (w_savefig w _); reflexivity.
Qed.

(** ** The files of the replicas *)

Lemma str_of_Z_parses (z : Z) : int_of_str (str_of_Z z) = Some z.
Proof.
  unfold int_of_str, str_of_Z. rewrite NilZero.isi.
  - simpl. now rewrite DecimalZ.of_to.
  - destruct z; simpl; intros H; try discriminate.
    injection H as H. now apply DecimalPos.Unsigned.to_uint_nonnil in H.
  - destruct z; simpl; intros H; try discriminate.
    injection H as H. now apply DecimalPos.Unsigned.to_uint_nonnil in H.
Qed.

(** Reading back what ['%02d'] printed gives the number printed. *)
Lemma fmt_02d_parses (z : Z) : int_of_str (fmt_02d z) = Some z.
Proof.
  pose proof (str_of_Z_parses z) as Hz. unfold fmt_02d.
  destruct (str_of_Z z) as [|c [|c' s]] eqn:Hs; simpl; try exact Hz.
  - unfold int_of_str in Hz. simpl in Hz. discriminate Hz.
  - unfold int_of_str in *. simpl in *.
    destruct (Ascii.eqb c "-"); [simpl in Hz; discriminate Hz|].
    match type of Hz with
    | option_map _ (option_map _ ?m) = _ => destruct m as [u|]
    end; [|simpl in Hz; discriminate Hz].
    exact Hz.
Qed.

Lemma fmt_02d_inj (i j : Z) : fmt_02d i = fmt_02d j -> i = j.
Proof.
  intros H. pose proof (fmt_02d_parses i) as Hi. rewrite H, fmt_02d_parses in Hi.
  now injection Hi.
Qed.

Lemma append_length (a b : string) :
  String.length (a +++ b) = (String.length a + String.length b)%nat.
Proof. induction a as [|c a IH]; simpl; [reflexivity | now rewrite IH]. Qed.

Lemma append_cancel_l (a x y : string) : a +++ x = a +++ y -> x = y.
Proof. induction a as [|c a IH]; simpl; intros H; [exact H | injection H as H; auto]. Qed.

Lemma append_cancel_r (c : string) :
  forall a b, a +++ c = b +++ c -> a = b.
Proof.
  induction a as [|x a IH]; intros [|y b] H; simpl in H.
  - reflexivity.
  - apply (f_equal String.length) in H. simpl in H. rewrite append_length in H. lia.
  - apply (f_equal String.length) in H. simpl in H. rewrite append_length in H. lia.
  - injection H as -> H. f_equal. now apply IH.
Qed.

(** X18: the data file and the figure of a replica name the replica: two
    different replica numbers never share a data file or a figure, in the
    mode of one plot for each replica as in [xvg_multi_line], so the figures
    of different replicas do not overwrite one another. *)
Theorem replica_files_distinct (path ensemble sufix : string) (i j : Z) :
  (replica_xvg path ensemble sufix i = replica_xvg path ensemble sufix j <-> i = j)
  /\ (replica_png path ensemble sufix i = replica_png path ensemble sufix j <-> i = j)
  /\ (replica_file path sufix i = replica_file path sufix j <-> i = j).
Proof.
  unfold replica_xvg, replica_png, replica_dir, replica_file.
  repeat split; try (intros ->; reflexivity); intros H.
  - apply append_cancel_r, append_cancel_l, append_cancel_l in H.
    now apply fmt_02d_inj.
  - apply append_cancel_r, append_cancel_l, append_cancel_l in H.
    now apply fmt_02d_inj.
  - apply append_cancel_l, append_cancel_l, append_cancel_r in H.
    apply fmt_02d_inj in H. lia.
Qed.

(** ** The last line of the script *)

(** X19: when no word of the command holds a line feed, the last line of
    the text that the scheduled mode writes, what follows its last line
    feed, is the command line, its words joined by single spaces. *)
Theorem gmx_script_last_line (arguments : list string) (inputs outputs : PyDict.t string)
    (name path ensemble : string) (scheduler : option config) (wait : bool)
    (stdin : option string) (w : world) :
  modules_is_list scheduler = true ->
  let cmd := gmx_cmd "mdrun" arguments inputs outputs in
  has_char (ascii_of_nat 10) (join " " cmd) = false ->
  exists text rest outcome,
    run (gmx "mdrun" arguments inputs outputs (Some name) (Some path) (Some ensemble)
           scheduler wait stdin) w
    = (WriteFile (path +++ "/" +++ ensemble +++ ".slurm") text :: rest, outcome)
    /\ last_line text = join " " cmd.
Proof.
  intros Hok. cbv zeta. intros Hline.
  set (cmd := gmx_cmd "mdrun" arguments inputs outputs) in *.
  destruct (batch_script_of_merge name ensemble scheduler cmd Hok)
    as (schdlr & v1 & v2 & v3 & v4 & v5 & v6 & ms & Hm & H1 & H2 & H3 & H4 & H5 & H6 & H7).
  pose proof (batch_script_lines schdlr cmd H1 H2 H3 H4 H5 H6 H7) as Hb.
  match type of Hb with
  | _ = inr (?pre ++ ms ++ [?a; ?b; ?c]) =>
      assert (Hsplit : pre ++ ms ++ [a; b; c] = (pre ++ ms ++ [a; b]) ++ [c])
        by (rewrite <- !app_assoc; reflexivity);
      rewrite Hsplit in Hb; clear Hsplit;
      set (front := pre ++ ms ++ [a; b]) in *;
      assert (Hfront : front <> []) by discriminate
  end.
  pose proof (gmx_scheduled_run arguments inputs outputs name path ensemble scheduler wait
                stdin w Hm Hb) as Hrun.
  cbv zeta in Hrun.
  assert (Hlast : last_line (join nl (front ++ [join " " cmd])) = join " " cmd).
  { rewrite join_snoc by exact Hfront. now apply last_line_after_feed. }
  destruct (w_write w _ _) as [e|]; [|destruct (w_spawn w _ _ _) as [e|p]];
    do 3 eexists; (split; [exact Hrun | exact Hlast]).
Qed.

Lemma gmx_script_last_line_witness :
  exists text rest outcome,
    run (gmx "mdrun" ["-v"] [("-s", "npt.tpr")] [("-deffnm", "npt")] (Some "sim")
           (Some "/scratch/run") (Some "npt") None false None)
        (steady_world 0 "" "" (Arr2 []))
    = (WriteFile ("/scratch/run" +++ "/" +++ "npt" +++ ".slurm") text :: rest, outcome)
    /\ last_line text
       = join " " (gmx_cmd "mdrun" ["-v"] [("-s", "npt.tpr")] [("-deffnm", "npt")]).
Proof.
  apply gmx_script_last_line; reflexivity.
Defined.
